(** * Todo Board: the board model, its JSON document and the message handlers

    A shallow embedding of [src/unnamed/part_000]: the host side
    ([TodoBoardEditor.resolveCustomTextEditor]: [sendData] and the
    [onDidReceiveMessage] dispatcher) and the webview side ([moveCard],
    [saveRename], the card drop handler), together with the builtins they
    rely on ([JSON.stringify(v, null, 2)], [JSON.parse], [String.prototype.trim],
    [Array.prototype.splice], [Date.now] rendered as a decimal string).

    JavaScript strings are sequences of UTF-16 code units; they are modelled
    as [list Z], one integer per code unit. *)

From Stdlib Require Import String Ascii.
From Stdlib Require Import List ZArith Bool Lia.
From Stdlib Require Decimal DecimalN.
Import ListNotations.
Open Scope Z_scope.
Open Scope list_scope.
Local Set Warnings "-register-all".

(** ** JavaScript strings *)

Definition jstr := list Z.

(** An ASCII literal as a JavaScript string. *)
Definition js (s : string) : jstr :=
  map (fun a => Z.of_nat (nat_of_ascii a)) (list_ascii_of_string s).

Definition jstr_eqb (a b : jstr) : bool :=
  if list_eq_dec Z.eq_dec a b then true else false.

(** Every element is a UTF-16 code unit. *)
Definition code_units (s : jstr) : Prop := Forall (fun u => 0 <= u < 65536) s.

(** ** The JSON values that [JSON.parse] produces.
    A number is kept as its source lexeme: documents of the board carry no
    numbers, and the conversion to a double is not modelled. *)

Inductive json :=
| JNull
| JBool (b : bool)
| JNum (lexeme : jstr)
| JStr (s : jstr)
| JArr (items : list json)
| JObj (members : list (jstr * json)).

(** ** [JSON.stringify(value, null, 2)] *)

Definition hex_digit (d : Z) : Z := if d <? 10 then 48 + d else 87 + d.

(** [UnicodeEscape]: backslash, [u], four lowercase hexadecimal digits. *)
Definition unicode_escape (c : Z) : jstr :=
  [92; 117; hex_digit (c / 4096 mod 16); hex_digit (c / 256 mod 16);
   hex_digit (c / 16 mod 16); hex_digit (c mod 16)].

Definition is_leading (c : Z) : bool := (55296 <=? c) && (c <=? 56319).
Definition is_trailing (c : Z) : bool := (56320 <=? c) && (c <=? 57343).

(** [QuoteJSONString] without its surrounding quotes: the short escapes,
    [\u] escapes for control characters and for lone surrogates, every other
    code unit (surrogate pairs included) as it is. *)
Fixpoint quote_units (s : jstr) : jstr :=
  match s with
  | [] => []
  | c :: t =>
      if c =? 34 then 92 :: 34 :: quote_units t
      else if c =? 92 then 92 :: 92 :: quote_units t
      else if c =? 8 then 92 :: 98 :: quote_units t
      else if c =? 12 then 92 :: 102 :: quote_units t
      else if c =? 10 then 92 :: 110 :: quote_units t
      else if c =? 13 then 92 :: 114 :: quote_units t
      else if c =? 9 then 92 :: 116 :: quote_units t
      else if c <? 32 then unicode_escape c ++ quote_units t
      else if is_leading c then
        match t with
        | d :: t' =>
            if is_trailing d then c :: d :: quote_units t'
            else unicode_escape c ++ quote_units t
        | [] => unicode_escape c
        end
      else if is_trailing c then unicode_escape c ++ quote_units t
      else c :: quote_units t
  end.

Definition quote (s : jstr) : jstr := 34 :: quote_units s ++ [34].

Definition nl : jstr := [10].
Definition gap : jstr := [32; 32].

(** [SerializeJSONProperty] with gap ["  "]: [ind] is the current indent. *)
Fixpoint stringify_at (ind : jstr) (v : json) : jstr :=
  match v with
  | JNull => js "null"
  | JBool true => js "true"
  | JBool false => js "false"
  | JNum l => l
  | JStr s => quote s
  | JArr [] => js "[]"
  | JArr (x :: xs) =>
      js "[" ++ nl ++ (ind ++ gap) ++ stringify_at (ind ++ gap) x
        ++ List.concat (map (fun y => js "," ++ nl ++ (ind ++ gap)
                                   ++ stringify_at (ind ++ gap) y) xs)
        ++ nl ++ ind ++ js "]"
  | JObj [] => js "{}"
  | JObj ((k, x) :: xs) =>
      js "{" ++ nl ++ (ind ++ gap) ++ quote k ++ js ": " ++ stringify_at (ind ++ gap) x
        ++ List.concat (map (fun '(k', y) => js "," ++ nl ++ (ind ++ gap) ++ quote k'
                                   ++ js ": " ++ stringify_at (ind ++ gap) y) xs)
        ++ nl ++ ind ++ js "}"
  end.

Definition stringify (v : json) : jstr := stringify_at [] v.

(** ** [JSON.parse] *)

Definition is_ws (c : Z) : bool := (c =? 32) || (c =? 9) || (c =? 10) || (c =? 13).

Fixpoint skip_ws (s : jstr) : jstr :=
  match s with
  | c :: t => if is_ws c then skip_ws t else s
  | [] => []
  end.

Definition hex_value (c : Z) : option Z :=
  if (48 <=? c) && (c <=? 57) then Some (c - 48)
  else if (97 <=? c) && (c <=? 102) then Some (c - 87)
  else if (65 <=? c) && (c <=? 70) then Some (c - 55)
  else None.

Definition hex4 (a b c d : Z) : option Z :=
  match hex_value a, hex_value b, hex_value c, hex_value d with
  | Some x, Some y, Some z, Some w => Some (((x * 16 + y) * 16 + z) * 16 + w)
  | _, _, _, _ => None
  end.

(** The body of a string literal after its opening quote; returns the
    code units and the text after the closing quote. *)
Fixpoint parse_str (s : jstr) : option (jstr * jstr) :=
  match s with
  | [] => None
  | c :: t =>
      if c =? 34 then Some ([], t)
      else if c =? 92 then
        match t with
        | e :: t' =>
            let single u :=
              match parse_str t' with
              | Some (x, r) => Some (u :: x, r)
              | None => None
              end in
            if e =? 34 then single 34
            else if e =? 92 then single 92
            else if e =? 47 then single 47
            else if e =? 98 then single 8
            else if e =? 102 then single 12
            else if e =? 110 then single 10
            else if e =? 114 then single 13
            else if e =? 116 then single 9
            else if e =? 117 then
              match t' with
              | h1 :: h2 :: h3 :: h4 :: t'' =>
                  match hex4 h1 h2 h3 h4 with
                  | Some u =>
                      match parse_str t'' with
                      | Some (x, r) => Some (u :: x, r)
                      | None => None
                      end
                  | None => None
                  end
              | _ => None
              end
            else None
        | [] => None
        end
      else if c <? 32 then None
      else
        match parse_str t with
        | Some (x, r) => Some (c :: x, r)
        | None => None
        end
  end.

Definition is_digit (c : Z) : bool := (48 <=? c) && (c <=? 57).

Fixpoint take_digits (s : jstr) : jstr * jstr :=
  match s with
  | c :: t => if is_digit c then let (ds, r) := take_digits t in (c :: ds, r) else ([], s)
  | [] => ([], [])
  end.

(** A number lexeme: [-? (0 | [1-9][0-9]* ) (. [0-9]+)? ([eE] [+-]? [0-9]+)?]. *)
Definition parse_number (s : jstr) : option (jstr * jstr) :=
  let (sign, s1) := match s with 45 :: t => ([45], t) | _ => ([], s) end in
  let int :=
    match s1 with
    | 48 :: t => Some ([48], t)
    | c :: t => if is_digit c then let (ds, r) := take_digits t in Some (c :: ds, r) else None
    | [] => None
    end in
  match int with
  | None => None
  | Some (i, s2) =>
      let frac :=
        match s2 with
        | 46 :: t => let (ds, r) := take_digits t in
                     match ds with [] => None | _ => Some (46 :: ds, r) end
        | _ => Some ([], s2)
        end in
      match frac with
      | None => None
      | Some (f, s3) =>
          let exp :=
            match s3 with
            | e :: t =>
                if (e =? 101) || (e =? 69) then
                  let (sg, t1) := match t with
                                  | 43 :: t2 => ([43], t2)
                                  | 45 :: t2 => ([45], t2)
                                  | _ => ([], t)
                                  end in
                  let (ds, r) := take_digits t1 in
                  match ds with [] => None | _ => Some (e :: sg ++ ds, r) end
                else Some ([], s3)
            | [] => Some ([], s3)
            end in
          match exp with
          | None => None
          | Some (x, r) => Some (sign ++ i ++ f ++ x, r)
          end
      end
  end.

Fixpoint parse_value (fuel : nat) (s : jstr) : option (json * jstr) :=
  match fuel with
  | O => None
  | S f =>
      match skip_ws s with
      | 34 :: t =>
          match parse_str t with
          | Some (x, r) => Some (JStr x, r)
          | None => None
          end
      | 91 :: t =>
          match skip_ws t with
          | 93 :: r => Some (JArr [], r)
          | _ => parse_elems f t []
          end
      | 123 :: t =>
          match skip_ws t with
          | 125 :: r => Some (JObj [], r)
          | _ => parse_members f t []
          end
      | 110 :: 117 :: 108 :: 108 :: r => Some (JNull, r)
      | 116 :: 114 :: 117 :: 101 :: r => Some (JBool true, r)
      | 102 :: 97 :: 108 :: 115 :: 101 :: r => Some (JBool false, r)
      | s' =>
          match parse_number s' with
          | Some (l, r) => Some (JNum l, r)
          | None => None
          end
      end
  end
with parse_elems (fuel : nat) (s : jstr) (acc : list json) : option (json * jstr) :=
  match fuel with
  | O => None
  | S f =>
      match parse_value f s with
      | Some (v, r) =>
          match skip_ws r with
          | 44 :: r' => parse_elems f r' (v :: acc)
          | 93 :: r' => Some (JArr (rev (v :: acc)), r')
          | _ => None
          end
      | None => None
      end
  end
with parse_members (fuel : nat) (s : jstr) (acc : list (jstr * json))
  : option (json * jstr) :=
  match fuel with
  | O => None
  | S f =>
      match skip_ws s with
      | 34 :: t =>
          match parse_str t with
          | Some (k, r) =>
              match skip_ws r with
              | 58 :: r' =>
                  match parse_value f r' with
                  | Some (v, r'') =>
                      match skip_ws r'' with
                      | 44 :: q => parse_members f q ((k, v) :: acc)
                      | 125 :: q => Some (JObj (rev ((k, v) :: acc)), q)
                      | _ => None
                      end
                  | None => None
                  end
              | _ => None
              end
          | None => None
          end
      | _ => None
      end
  end.

(** Every step of the parser consumes input, so fuel of the text's length
    never runs out before the text does. *)
Definition json_parse (s : jstr) : option json :=
  match parse_value (length s) s with
  | Some (v, r) => if forallb is_ws r then Some v else None
  | None => None
  end.

(** A literal in which ['] stands for a double quote, for examples. *)
Definition jq (s : string) : jstr := map (fun c => if c =? 39 then 34 else c) (js s).

Example parse_ex1 :
  json_parse (jq "{ 'a': [1, 'x\u0041', null, -2.5e3, true], 'b': {} }")
  = Some (JObj [(js "a", JArr [JNum (js "1"); JStr (js "xA"); JNull;
                               JNum (js "-2.5e3"); JBool true]);
                (js "b", JObj [])]).
Proof. vm_compute. reflexivity. Qed.

Example parse_ex2 : json_parse (jq "{'a': [1,]}") = None.
Proof. vm_compute. reflexivity. Qed.

(** ** Array and list helpers *)

Fixpoint find_index {A} (p : A -> bool) (l : list A) : option nat :=
  match l with
  | [] => None
  | x :: t => if p x then Some O else option_map S (find_index p t)
  end.

(** [a.splice(n, 1)]: the array without element [n]. *)
Definition remove_at {A} (n : nat) (l : list A) : list A := firstn n l ++ skipn (S n) l.

(** [a.splice(n, 0, x)] for a start [n] already clamped to [0 .. a.length]. *)
Definition insert_at {A} (n : nat) (x : A) (l : list A) : list A :=
  firstn n l ++ x :: skipn n l.

(** In-place update of the element at [n] (mutation of a shared object). *)
Fixpoint update_at {A} (n : nat) (f : A -> A) (l : list A) : list A :=
  match l, n with
  | [], _ => []
  | x :: t, O => f x :: t
  | x :: t, S n' => x :: update_at n' f t
  end.

(** The start argument of [splice]: relative to the end when negative,
    clamped to [0 .. len]. *)
Definition splice_start (k : Z) (len : nat) : nat :=
  if k <? 0 then Z.to_nat (Z.max (Z.of_nat len + k) 0)
  else Z.to_nat (Z.min k (Z.of_nat len)).

(** ** The board *)

Record card := { card_id : jstr; card_title : jstr }.
Record column := { col_id : jstr; col_title : jstr; cards : list card }.
Record board := { columns : list column }.

Definition card_to_json (c : card) : json :=
  JObj [(js "id", JStr (card_id c)); (js "title", JStr (card_title c))].

Definition column_to_json (c : column) : json :=
  JObj [(js "id", JStr (col_id c)); (js "title", JStr (col_title c));
        (js "cards", JArr (map card_to_json (cards c)))].

Definition board_to_json (b : board) : json :=
  JObj [(js "columns", JArr (map column_to_json (columns b)))].

(** Property access on a parsed object: [JSON.parse] keeps the last of
    duplicated keys. *)
Definition get_prop (k : jstr) (m : list (jstr * json)) : option json :=
  fold_left (fun acc '(k', v) => if jstr_eqb k k' then Some v else acc) m None.

Definition get_str (k : jstr) (m : list (jstr * json)) : option jstr :=
  match get_prop k m with Some (JStr s) => Some s | _ => None end.

Fixpoint map_opt {A B} (f : A -> option B) (l : list A) : option (list B) :=
  match l with
  | [] => Some []
  | x :: t => match f x, map_opt f t with
              | Some y, Some ys => Some (y :: ys)
              | _, _ => None
              end
  end.

Definition card_of_json (j : json) : option card :=
  match j with
  | JObj m => match get_str (js "id") m, get_str (js "title") m with
              | Some i, Some t => Some {| card_id := i; card_title := t |}
              | _, _ => None
              end
  | _ => None
  end.

Definition column_of_json (j : json) : option column :=
  match j with
  | JObj m =>
      match get_str (js "id") m, get_str (js "title") m, get_prop (js "cards") m with
      | Some i, Some t, Some (JArr cs) =>
          match map_opt card_of_json cs with
          | Some cs' => Some {| col_id := i; col_title := t; cards := cs' |}
          | None => None
          end
      | _, _, _ => None
      end
  | _ => None
  end.

(** A parsed document read as a board ([None]: a document of another shape,
    which the handlers below do not cover). *)
Definition board_of_json (j : json) : option board :=
  match j with
  | JObj m => match get_prop (js "columns") m with
              | Some (JArr cs) => option_map Build_board (map_opt column_of_json cs)
              | _ => None
              end
  | _ => None
  end.

Definition col_has_id (i : jstr) (c : column) : bool := jstr_eqb (col_id c) i.
Definition card_has_id (i : jstr) (c : card) : bool := jstr_eqb (card_id c) i.

(** ** Identifiers: [Date.now()] and [toLowerCase().replace(/[^a-z0-9]/g, '-')] *)

Fixpoint uint_units (d : Decimal.uint) : jstr :=
  match d with
  | Decimal.Nil => []
  | Decimal.D0 d' => 48 :: uint_units d'
  | Decimal.D1 d' => 49 :: uint_units d'
  | Decimal.D2 d' => 50 :: uint_units d'
  | Decimal.D3 d' => 51 :: uint_units d'
  | Decimal.D4 d' => 52 :: uint_units d'
  | Decimal.D5 d' => 53 :: uint_units d'
  | Decimal.D6 d' => 54 :: uint_units d'
  | Decimal.D7 d' => 55 :: uint_units d'
  | Decimal.D8 d' => 56 :: uint_units d'
  | Decimal.D9 d' => 57 :: uint_units d'
  end.

(** The decimal text of an integral number of milliseconds. *)
Definition number_to_string (n : N) : jstr := uint_units (N.to_uint n).

(** [String.prototype.toLowerCase] on the code units that can lower-case
    into [a-z0-9]: [A-Z], U+0130 (to [i] and U+0307) and the Kelvin sign
    U+212A (to [k]). Every other code unit is kept; its real lower-case form
    is again outside [a-z0-9], which the slug below maps to [-] all the same. *)
Definition to_lower_case (s : jstr) : jstr :=
  flat_map (fun u => if (65 <=? u) && (u <=? 90) then [u + 32]
                     else if u =? 304 then [105; 775]
                     else if u =? 8490 then [107]
                     else [u]) s.

Definition is_slug_unit (u : Z) : bool := ((97 <=? u) && (u <=? 122)) || is_digit u.

Definition slug (title : jstr) : jstr :=
  map (fun u => if is_slug_unit u then u else 45) (to_lower_case title).

Definition new_column_id (title : jstr) (now : N) : jstr :=
  slug title ++ js "-" ++ number_to_string now.

Definition new_card_id (now : N) : jstr := js "card-" ++ number_to_string now.

Example new_column_id_ex :
  new_column_id (js "In Progress!") 1700000000000%N = js "in-progress--1700000000000".
Proof. vm_compute. reflexivity. Qed.

(** ** The host: [sendData] and the [onDidReceiveMessage] dispatcher *)

(** The messages of the webview. *)
Inductive msg :=
| MUpdate (data : json)
| MDeleteColumn (columnId : jstr)
| MRenameColumn (columnId newTitle : jstr)
| MAddColumn
| MAddCard (columnId : jstr)
| MDeleteCard (columnId cardId : jstr)
| MMoveColumn (fromId toId : jstr)
| MOther.

(** [sendData]: the parsed document posted as [{type: 'data', data}];
    nothing is posted when the text does not parse. *)
Definition sendData (doc : jstr) : list json :=
  match json_parse doc with
  | Some j => [j]
  | None => []
  end.

(** [edit.replace(uri, Range(positionAt(0), positionAt(currentText.length)), t)]
    on the document whose text is now [doc_now]: the offset is clamped to the
    current text, and what lies beyond it is kept. *)
Definition replace_prefix (currentText t doc_now : jstr) : jstr :=
  t ++ skipn (length currentText) doc_now.

(** How a message ends. *)
Inductive finish :=
| Dropped                  (* returns without [applyEdit] *)
| NotABoard                (* the document is JSON of another shape *)
| Written (text : jstr).   (* [applyEdit] with the new text, then [save] *)

(** The synchronous part of the handler either finishes, or awaits
    [showInputBox]; the rest then runs with the answer (undefined: [None]),
    [Date.now()] and the document text current at that moment, and returns
    the snapshots [sendData] posted and how it ended. *)
Inductive outcome :=
| Now (f : finish)
| Prompt (k : option jstr -> N -> jstr -> list json * finish).

(** The direct structural edits; [None] when [dirty] stays false. *)
Definition dispatch_sync (m : msg) (b : board) : option board :=
  let cols := columns b in
  match m with
  | MDeleteColumn cid =>
      match find_index (col_has_id cid) cols with
      | Some i => Some {| columns := remove_at i cols |}
      | None => None
      end
  | MRenameColumn cid t =>
      match find_index (col_has_id cid) cols with
      | Some i => Some {| columns := update_at i (fun c =>
                            {| col_id := col_id c; col_title := t; cards := cards c |}) cols |}
      | None => None
      end
  | MDeleteCard cid kid =>
      match find_index (col_has_id cid) cols with
      | Some i =>
          match nth_error cols i with
          | Some col =>
              match find_index (card_has_id kid) (cards col) with
              | Some k => Some {| columns := update_at i (fun c =>
                              {| col_id := col_id c; col_title := col_title c;
                                 cards := remove_at k (cards c) |}) cols |}
              | None => None
              end
          | None => None
          end
      | None => None
      end
  | MMoveColumn f t =>
      match find_index (col_has_id f) cols, find_index (col_has_id t) cols with
      | Some fi, Some ti =>
          if Nat.eqb fi ti then None
          else match nth_error cols fi with
               | Some col => Some {| columns := insert_at ti col (remove_at fi cols) |}
               | None => None
               end
      | _, _ => None
      end
  | _ => None
  end.

Definition truthy (t : option jstr) : option jstr :=
  match t with Some (_ :: _) => t | _ => None end.

(** The [add-column] branch after [showInputBox] resolved. *)
Definition add_column_k (currentText : jstr) (data : json)
  (title : option jstr) (now : N) (doc_now : jstr) : list json * finish :=
  match truthy title with
  | None => ([], Dropped)
  | Some t =>
      match board_of_json data with
      | None => ([], NotABoard)
      | Some b =>
          let col := {| col_id := new_column_id t now; col_title := t; cards := [] |} in
          let b' := {| columns := columns b ++ [col] |} in
          (sendData doc_now,
           Written (replace_prefix currentText (stringify (board_to_json b')) doc_now))
      end
  end.

(** The [add-card] branch after [showInputBox] resolved. *)
Definition add_card_k (currentText : jstr) (data : json) (cid : jstr)
  (title : option jstr) (now : N) (doc_now : jstr) : list json * finish :=
  match truthy title with
  | None => ([], Dropped)
  | Some t =>
      match board_of_json data with
      | None => ([], NotABoard)
      | Some b =>
          match find_index (col_has_id cid) (columns b) with
          | None => ([], Dropped)
          | Some i =>
              let cd := {| card_id := new_card_id now; card_title := t |} in
              let b' := {| columns := update_at i (fun c =>
                             {| col_id := col_id c; col_title := col_title c;
                                cards := cards c ++ [cd] |}) (columns b) |} in
              (sendData doc_now,
               Written (replace_prefix currentText (stringify (board_to_json b')) doc_now))
          end
      end
  end.

(** [onDidReceiveMessage]: [currentText] is the document text when the
    message arrives; [data] is parsed from it once, before any prompt.
    The code edits the parsed object in place and writes it; here the text
    written is that of the edited board read from [data]. The two agree on
    a document that holds only a board's keys, in this order; keys of
    other kinds, which the code keeps, are not modelled. *)
Definition onDidReceiveMessage (currentText : jstr) (m : msg) : outcome :=
  match json_parse currentText with
  | None => Now Dropped
  | Some data =>
      match m with
      | MUpdate d => Now (Written (replace_prefix currentText (stringify d) currentText))
      | MAddColumn => Prompt (add_column_k currentText data)
      | MAddCard cid => Prompt (add_card_k currentText data cid)
      | MOther => Now Dropped
      | _ =>
          match board_of_json data with
          | None => Now NotABoard
          | Some b =>
              match dispatch_sync m b with
              | Some b' => Now (Written (replace_prefix currentText
                                           (stringify (board_to_json b')) currentText))
              | None => Now Dropped
              end
          end
      end
  end.

(** ** The webview *)

(** Completion of a webview function: normal, or a thrown [TypeError]
    (property access on [undefined]); mutations made before the throw stay. *)
Inductive completion := Normal | Threw.

(** [fromCol.cards.splice(fromIdx, 1)] on the column object. *)
Definition splice_out_card (fromIdx : nat) (c : column) : column :=
  {| col_id := col_id c; col_title := col_title c; cards := remove_at fromIdx (cards c) |}.

(** [finalIndex]: decremented when the card moves down its own column. *)
Definition final_index (fromId toId : jstr) (fromIdx : nat) (toIndex : option Z)
  : option Z :=
  match toIndex with
  | Some k => if jstr_eqb fromId toId && (Z.of_nat fromIdx <? k)
              then Some (k - 1) else Some k
  | None => None
  end.

(** [finalIndex = toCol.cards.length] when undefined, then
    [toCol.cards.splice(finalIndex, 0, card)]. *)
Definition insert_index (finalIndex : option Z) (len : nat) : nat :=
  match finalIndex with
  | None => len
  | Some k => splice_start k len
  end.

Definition splice_in_card (finalIndex : option Z) (cd : card) (c : column) : column :=
  {| col_id := col_id c; col_title := col_title c;
     cards := insert_at (insert_index finalIndex (length (cards c))) cd (cards c) |}.

(** [moveCard(fromId, toId, cardId, toIndex)] on the webview [state];
    [toIndex] undefined is [None]. [fromCol] and [toCol] are the same object
    when [fromId === toId], so [toCol] is looked up after the removal. *)
Definition moveCard (state : board) (fromId toId cardId : jstr) (toIndex : option Z)
  : board * completion :=
  let cols := columns state in
  match find_index (col_has_id fromId) cols with
  | None => (state, Threw)
  | Some fi =>
      match nth_error cols fi with
      | None => (state, Threw)
      | Some fromCol =>
          match find_index (card_has_id cardId) (cards fromCol) with
          | None => (state, Normal)
          | Some fromIdx =>
              match nth_error (cards fromCol) fromIdx with
              | None => (state, Normal)
              | Some cd =>
                  let cols1 := update_at fi (splice_out_card fromIdx) cols in
                  let finalIndex := final_index fromId toId fromIdx toIndex in
                  match find_index (col_has_id toId) cols1 with
                  | None => ({| columns := cols1 |}, Threw)
                  | Some ti =>
                      ({| columns := update_at ti (splice_in_card finalIndex cd) cols1 |},
                       Normal)
                  end
              end
          end
      end
  end.

(** The card branch of [column.ondrop]: [index] is the insertion index the
    handler derived from the drop position. After [moveCard] it re-renders
    and posts the whole state as an [update]; a throw skips both. *)
Definition card_drop (state : board) (fromColumn colId draggedId : jstr) (index : Z)
  : board * list msg :=
  match moveCard state fromColumn colId draggedId (Some index) with
  | (st', Normal) => (st', [MUpdate (board_to_json st')])
  | (st', Threw) => (st', [])
  end.

(** [String.prototype.trim]: WhiteSpace and LineTerminator code units. *)
Definition is_js_space (u : Z) : bool :=
  existsb (Z.eqb u) [9; 10; 11; 12; 13; 32; 160; 5760; 8232; 8233; 8239; 8287;
                     12288; 65279]
  || ((8192 <=? u) && (u <=? 8202)).

Fixpoint trim_start (s : jstr) : jstr :=
  match s with
  | u :: t => if is_js_space u then trim_start t else s
  | [] => []
  end.

Definition trim (s : jstr) : jstr := rev (trim_start (rev (trim_start s))).

(** [saveRename] of a column title: post a [rename-column] message, or put
    the column's title back into the edited element. *)
Inductive rename_action := PostRename (m : msg) | ResetTitle (t : jstr).

Definition saveRename (col : column) (textContent : jstr) : rename_action :=
  let newTitle := trim textContent in
  if negb (jstr_eqb newTitle []) && negb (jstr_eqb newTitle (col_title col))
  then PostRename (MRenameColumn (col_id col) newTitle)
  else ResetTitle (col_title col).

(** The code units of the generated identifiers: [a-z], [0-9] and [-]. *)
Definition id_unit (u : Z) : bool := is_slug_unit u || (u =? 45).

(** [Array.prototype.findIndex]: [-1] when nothing matches. *)
Definition find_index_js {A} (p : A -> bool) (l : list A) : Z :=
  match find_index p l with
  | Some i => Z.of_nat i
  | None => -1
  end.

(** The [index] of the card branch of [column.ondrop]: [after] is the
    [dataset.id] of the element [getDragAfterElement] returns ([None]:
    undefined). [None] is a throw: [state.columns.find] gave undefined. *)
Definition drop_index (state : board) (colId : jstr) (after : option jstr) : option Z :=
  match find_index (col_has_id colId) (columns state) with
  | None => None
  | Some i =>
      match nth_error (columns state) i with
      | None => None
      | Some c =>
          Some (match after with
                | Some aid => find_index_js (card_has_id aid) (cards c)
                | None => Z.of_nat (length (cards c))
                end)
      end
  end.

(** The card branch of [column.ondrop] on the column [colId]: compute
    [index], [moveCard], [render], post the state as an [update]. *)
Definition card_ondrop (state : board) (fromColumn colId draggedId : jstr)
  (after : option jstr) : board * list msg :=
  match drop_index state colId after with
  | None => (state, [])
  | Some index => card_drop state fromColumn colId draggedId index
  end.

(** ** [createBoard]: the file name of a new board *)

(** The code units [/[^a-z0-9\- ]/gi] does not match: with the [i] flag
    (no [u] flag) the class holds ASCII letters of both cases, digits, [-]
    and the space. *)
Definition name_char_ok (u : Z) : bool :=
  ((97 <=? u) && (u <=? 122)) || ((65 <=? u) && (u <=? 90)) || is_digit u
  || (u =? 45) || (u =? 32).

(** [name.replace(/[^a-z0-9\- ]/gi, '').trim()], then
    [(safeName || 'untitled') + '.board.json']; [None] when the prompt gave
    no name ([if (!name) return]). *)
Definition board_filename (name : option jstr) : option jstr :=
  match name with
  | None | Some [] => None
  | Some n =>
      let safeName := trim (filter name_char_ok n) in
      Some ((match safeName with [] => js "untitled" | _ => safeName end)
            ++ js ".board.json")
  end.

(** ** Examples *)

Definition mk_card (i t : string) : card := {| card_id := js i; card_title := js t |}.
Definition mk_col (i t : string) (cs : list card) : column :=
  {| col_id := js i; col_title := js t; cards := cs |}.

Definition ex_board : board :=
  {| columns := [mk_col "a" "A" [mk_card "c1" "X"; mk_card "c2" "Y"; mk_card "c3" "Z"];
                 mk_col "b" "B" []] |}.

Example moveCard_ex_same :
  moveCard ex_board (js "a") (js "a") (js "c1") (Some 2%Z)
  = ({| columns := [mk_col "a" "A" [mk_card "c2" "Y"; mk_card "c1" "X"; mk_card "c3" "Z"];
                    mk_col "b" "B" []] |}, Normal).
Proof. vm_compute. reflexivity. Qed.

Example moveCard_ex_cross :
  moveCard ex_board (js "a") (js "b") (js "c1") (Some 0%Z)
  = ({| columns := [mk_col "a" "A" [mk_card "c2" "Y"; mk_card "c3" "Z"];
                    mk_col "b" "B" [mk_card "c1" "X"]] |}, Normal).
Proof. vm_compute. reflexivity. Qed.

Example handler_ex_delete :
  onDidReceiveMessage (stringify (board_to_json ex_board)) (MDeleteColumn (js "a"))
  = Now (Written (stringify (board_to_json {| columns := [mk_col "b" "B" []] |}))).
Proof. vm_compute. reflexivity. Qed.

Example handler_ex_move_column :
  onDidReceiveMessage (stringify (board_to_json ex_board)) (MMoveColumn (js "a") (js "b"))
  = Now (Written (stringify (board_to_json
      {| columns := [mk_col "b" "B" [];
                     mk_col "a" "A" [mk_card "c1" "X"; mk_card "c2" "Y"; mk_card "c3" "Z"]] |}))).
Proof. vm_compute. reflexivity. Qed.

(** ** Auxiliary definitions for the proofs *)

Definition col_count (cols : list column) : nat :=
  fold_right (fun c n => (length (cards c) + n)%nat) O cols.

(** Total number of cards on a board. *)
Definition card_count (b : board) : nat := col_count (columns b).

Definition ex_col_a : column :=
  mk_col "a" "A" [mk_card "c1" "X"; mk_card "c2" "Y"; mk_card "c3" "Z"].

(** Values the board documents are made of: no numbers, code units only. *)
Fixpoint json_ok (v : json) : Prop :=
  match v with
  | JNull | JBool _ => True
  | JNum _ => False
  | JStr s => code_units s
  | JArr l => fold_right (fun x P => json_ok x /\ P) True l
  | JObj m => fold_right (fun kv P => code_units (fst kv) /\ json_ok (snd kv) /\ P) True m
  end.

(** The parser steps a value needs. *)
Fixpoint nodes (v : json) : nat :=
  match v with
  | JArr l => S (list_sum (map (fun x => S (nodes x)) l))
  | JObj m => S (list_sum (map (fun kv => S (nodes (snd kv))) m))
  | _ => 1%nat
  end.

Section JsonInd.
Variable P : json -> Prop.
Hypothesis HNull : P JNull.
Hypothesis HBool : forall b, P (JBool b).
Hypothesis HNum : forall l, P (JNum l).
Hypothesis HStr : forall s, P (JStr s).
Hypothesis HArr : forall l, Forall P l -> P (JArr l).
Hypothesis HObj : forall m, Forall (fun kv => P (snd kv)) m -> P (JObj m).

Fixpoint json_ind' (v : json) : P v :=
  match v with
  | JNull => HNull
  | JBool b => HBool b
  | JNum l => HNum l
  | JStr s => HStr s
  | JArr l => HArr l ((fix go (l : list json) : Forall P l :=
                        match l with
                        | [] => Forall_nil _
                        | x :: t => Forall_cons _ (json_ind' x) (go t)
                        end) l)
  | JObj m => HObj m ((fix go (m : list (jstr * json)) : Forall (fun kv => P (snd kv)) m :=
                        match m with
                        | [] => Forall_nil _
                        | kv :: t => Forall_cons _ (json_ind' (snd kv)) (go t)
                        end) m)
  end.
End JsonInd.

Definition all_ws (w : jstr) : Prop := forallb is_ws w = true.

(** The round trip of one value at indent [ind], after any white space [w]
    and before any text [r]. *)
Definition roundtrips (v : json) : Prop :=
  json_ok v -> forall ind w r f, all_ws ind -> all_ws w -> (nodes v <= f)%nat ->
  parse_value f (w ++ stringify_at ind v ++ r) = Some (v, r).

(** The first code unit a value prints. *)
Definition head_unit (v : json) : Z :=
  match v with
  | JNull => 110 | JBool true => 116 | JBool false => 102
  | JNum _ => 48 | JStr _ => 34 | JArr _ => 91 | JObj _ => 123
  end.

(** The strings of a board are strings of UTF-16 code units, as every
    JavaScript string is. *)
Definition units_ok (s : jstr) : bool := forallb (fun u => (0 <=? u) && (u <? 65536)) s.

Definition card_wf (c : card) : bool := units_ok (card_id c) && units_ok (card_title c).

Definition column_wf (c : column) : bool :=
  units_ok (col_id c) && units_ok (col_title c) && forallb card_wf (cards c).

Definition board_wf (b : board) : bool := forallb column_wf (columns b).

(** The webview's text of the example board. *)
Definition ex_doc : jstr := stringify (board_to_json ex_board).

(** [ex_board] after deleting column [a], and after deleting card [c1]. *)
Definition ex_board_no_a : board := {| columns := [mk_col "b" "B" []] |}.

Definition ex_board_no_c1 : board :=
  {| columns := [mk_col "a" "A" [mk_card "c2" "Y"; mk_card "c3" "Z"]; mk_col "b" "B" []] |}.

(** The rest of a prompting handler, once [showInputBox] resolved with
    [title], at time [now], on the document text [doc_now]. *)
Definition after_prompt (o : outcome) (title : option jstr) (now : N) (doc_now : jstr)
  : list json * finish :=
  match o with
  | Prompt k => k title now doc_now
  | Now f => ([], f)
  end.

(** * Proofs *)

(** ** Lemmas on the array helpers *)

Lemma jstr_eqb_true (a b : jstr) : jstr_eqb a b = true <-> a = b.
Proof. unfold jstr_eqb; destruct (list_eq_dec Z.eq_dec a b); split; congruence. Qed.

Lemma jstr_eqb_refl (a : jstr) : jstr_eqb a a = true.
Proof. apply jstr_eqb_true; reflexivity. Qed.

Lemma find_index_some {A} (p : A -> bool) l i :
  find_index p l = Some i ->
  exists x, nth_error l i = Some x /\ p x = true.
Proof.
  revert i; induction l as [|y t IH]; intros i H; simpl in H; [discriminate|].
  destruct (p y) eqn:Hy.
  - injection H as <-. exists y; auto.
  - destruct (find_index p t) as [j|] eqn:Hj; simpl in H; [|discriminate].
    injection H as <-. destruct (IH j eq_refl) as (x & Hx & Hp). exists x; auto.
Qed.

Lemma find_index_first {A} (p : A -> bool) l i :
  find_index p l = Some i -> forall j x, (j < i)%nat -> nth_error l j = Some x -> p x = false.
Proof.
  revert i; induction l as [|y t IH]; intros i H j x Hj Hx; simpl in H; [discriminate|].
  destruct (p y) eqn:Hy.
  - injection H as <-. lia.
  - destruct (find_index p t) as [k|] eqn:Hk; simpl in H; [|discriminate].
    injection H as <-. destruct j as [|j]; simpl in Hx.
    + congruence.
    + apply (IH k eq_refl j x); [lia | exact Hx].
Qed.

Lemma find_index_none {A} (p : A -> bool) l :
  find_index p l = None -> forall x, In x l -> p x = false.
Proof.
  induction l as [|y t IH]; intros H x Hx; simpl in *; [contradiction|].
  destruct (p y) eqn:Hy; [discriminate|].
  destruct (find_index p t); [discriminate|].
  destruct Hx as [<-|Hx]; auto.
Qed.

Lemma find_index_update {A} (p : A -> bool) (f : A -> A) n l :
  (forall x, p (f x) = p x) -> find_index p (update_at n f l) = find_index p l.
Proof.
  intros Hf; revert n; induction l as [|y t IH]; intros [|n]; simpl; auto.
  - rewrite Hf; reflexivity.
  - rewrite IH; reflexivity.
Qed.

Lemma nth_error_update_eq {A} (f : A -> A) n l x :
  nth_error l n = Some x -> nth_error (update_at n f l) n = Some (f x).
Proof.
  revert n; induction l as [|y t IH]; intros [|n] H; simpl in *; try discriminate.
  - congruence.
  - auto.
Qed.

Lemma nth_error_update_neq {A} (f : A -> A) n m l :
  n <> m -> nth_error (update_at n f l) m = nth_error l m.
Proof.
  revert n m; induction l as [|y t IH]; intros [|n] [|m] H; simpl; auto; try lia.
Qed.

Lemma length_update {A} (f : A -> A) n l : length (update_at n f l) = length l.
Proof. revert n; induction l; intros [|n]; simpl; auto. Qed.

Lemma length_insert_at {A} n (x : A) l : length (insert_at n x l) = S (length l).
Proof.
  unfold insert_at. rewrite length_app; simpl.
  rewrite <- (firstn_skipn n l) at 3. rewrite length_app. lia.
Qed.

Lemma nth_error_insert_at {A} n (x : A) l :
  (n <= length l)%nat -> nth_error (insert_at n x l) n = Some x.
Proof.
  intros H. unfold insert_at. rewrite nth_error_app2; rewrite length_firstn; [|lia].
  replace (n - Nat.min n (length l))%nat with O by lia. reflexivity.
Qed.

Lemma remove_insert_at {A} n (x : A) l :
  (n <= length l)%nat -> remove_at n (insert_at n x l) = l.
Proof.
  revert l; induction n as [|n IH]; intros l H; [reflexivity|].
  destruct l as [|y t]; simpl in H; [lia|].
  unfold remove_at, insert_at in *; simpl. f_equal. apply IH; lia.
Qed.

Lemma length_remove_at {A} n (l : list A) :
  (n < length l)%nat -> S (length (remove_at n l)) = length l.
Proof.
  intros H. unfold remove_at. rewrite length_app, length_firstn, length_skipn. lia.
Qed.

Lemma nth_error_lt {A} (l : list A) n x : nth_error l n = Some x -> (n < length l)%nat.
Proof. intros H. apply nth_error_Some. congruence. Qed.

Lemma splice_start_le k len : (splice_start k len <= len)%nat.
Proof.
  unfold splice_start; destruct (k <? 0) eqn:E;
    [apply Z.ltb_lt in E | apply Z.ltb_ge in E]; lia.
Qed.

Lemma insert_index_le fi len : (insert_index fi len <= len)%nat.
Proof. destruct fi; simpl; [apply splice_start_le | lia]. Qed.

(** ** [moveCard] when every identifier resolves *)

Lemma col_has_id_splice_out i k c :
  col_has_id i (splice_out_card k c) = col_has_id i c.
Proof. reflexivity. Qed.

Lemma moveCard_resolved st f t k fi fcol i cd ti idx :
  find_index (col_has_id f) (columns st) = Some fi ->
  nth_error (columns st) fi = Some fcol ->
  find_index (card_has_id k) (cards fcol) = Some i ->
  nth_error (cards fcol) i = Some cd ->
  find_index (col_has_id t) (columns st) = Some ti ->
  moveCard st f t k idx =
  ({| columns := update_at ti (splice_in_card (final_index f t i idx) cd)
                   (update_at fi (splice_out_card i) (columns st)) |}, Normal).
Proof.
  intros Hf Hc Hk Hd Ht. unfold moveCard.
  rewrite Hf, Hc, Hk, Hd.
  rewrite find_index_update by (intros; apply col_has_id_splice_out).
  rewrite Ht. reflexivity.
Qed.

(** The destination column once the card is spliced out of the source. *)
Lemma nth_error_dest_after_removal cols fi ti i fcol dcol :
  nth_error cols fi = Some fcol -> nth_error cols ti = Some dcol ->
  nth_error (update_at fi (splice_out_card i) cols) ti
  = Some (if Nat.eqb fi ti then splice_out_card i fcol else dcol).
Proof.
  intros Hc Hd. destruct (Nat.eqb fi ti) eqn:E.
  - apply Nat.eqb_eq in E; subst ti. apply nth_error_update_eq; exact Hc.
  - apply Nat.eqb_neq in E. rewrite nth_error_update_neq by exact E. exact Hd.
Qed.

Lemma col_count_update n f cols x :
  nth_error cols n = Some x ->
  (col_count (update_at n f cols) + length (cards x)
   = col_count cols + length (cards (f x)))%nat.
Proof.
  revert n; induction cols as [|y t IH]; intros [|n] H; simpl in *; try discriminate.
  - injection H as <-. lia.
  - specialize (IH n H). lia.
Qed.

Lemma insert_at_end {A} (x : A) l : insert_at (length l) x l = l ++ [x].
Proof. unfold insert_at. rewrite firstn_all, skipn_all. reflexivity. Qed.

(** ** C1: reordering inside one column *)

(** C1. Let [cid] resolve to the column [col] at index [ci] and [cardId] to
    the card [cd] at index [i] of [col]. Moving the card inside its own column
    to a requested index [j] with [i < j] (an index of the column, at most its
    length) leaves it at index [j - 1]: the index is decremented because the
    removal shifted the later cards left. With no index the card is appended:
    the column becomes its other cards followed by [cd]. *)
Theorem moveCard_same_column_reorder st cid cardId ci col i cd :
  find_index (col_has_id cid) (columns st) = Some ci ->
  nth_error (columns st) ci = Some col ->
  find_index (card_has_id cardId) (cards col) = Some i ->
  nth_error (cards col) i = Some cd ->
  (forall j, (Z.of_nat i < j)%Z -> (j <= Z.of_nat (length (cards col)))%Z ->
     exists col',
       snd (moveCard st cid cid cardId (Some j)) = Normal /\
       nth_error (columns (fst (moveCard st cid cid cardId (Some j)))) ci = Some col' /\
       nth_error (cards col') (Z.to_nat (j - 1)) = Some cd) /\
  (exists col',
     snd (moveCard st cid cid cardId None) = Normal /\
     nth_error (columns (fst (moveCard st cid cid cardId None))) ci = Some col' /\
     cards col' = remove_at i (cards col) ++ [cd]).
Proof.
  intros Hf Hc Hk Hd.
  assert (Hi : (i < length (cards col))%nat) by (eapply nth_error_lt; eauto).
  assert (Hlen := length_remove_at i (cards col) Hi).
  split.
  - intros j Hij Hj.
    rewrite (moveCard_resolved st cid cid cardId ci col i cd ci (Some j) Hf Hc Hk Hd Hf).
    simpl. eexists. split; [reflexivity|]. split.
    + apply nth_error_update_eq. apply nth_error_update_eq. exact Hc.
    + unfold splice_in_card, splice_out_card, final_index; simpl.
      rewrite jstr_eqb_refl. replace (Z.of_nat i <? j)%Z with true by lia. simpl.
      replace (splice_start (j - 1) (length (remove_at i (cards col)))) with (Z.to_nat (j - 1)).
      * apply nth_error_insert_at. lia.
      * unfold splice_start. replace (j - 1 <? 0)%Z with false by lia. lia.
  - rewrite (moveCard_resolved st cid cid cardId ci col i cd ci None Hf Hc Hk Hd Hf).
    simpl. eexists. split; [reflexivity|]. split.
    + apply nth_error_update_eq. apply nth_error_update_eq. exact Hc.
    + unfold splice_in_card, splice_out_card, final_index; simpl.
      apply insert_at_end.
Qed.

Lemma splice_in_card_count fi cd c :
  length (cards (splice_in_card fi cd c)) = S (length (cards c)).
Proof. unfold splice_in_card; simpl. apply length_insert_at. Qed.

Lemma splice_in_card_at fi cd c :
  nth_error (cards (splice_in_card fi cd c))
            (insert_index fi (length (cards c))) = Some cd.
Proof. unfold splice_in_card; simpl. apply nth_error_insert_at, insert_index_le. Qed.

Lemma splice_in_card_rest fi cd c :
  remove_at (insert_index fi (length (cards c))) (cards (splice_in_card fi cd c))
  = cards c.
Proof. unfold splice_in_card; simpl. apply remove_insert_at, insert_index_le. Qed.

(** ** C2: conservation *)

(** C2. When the source column id, the destination column id and the card id
    all resolve, [moveCard] completes normally, the board holds as many cards
    afterwards as before, and the moved card, the same record with its id and
    title, is in the destination column. *)
Theorem moveCard_conserves st f t k fi fcol i cd ti idx :
  find_index (col_has_id f) (columns st) = Some fi ->
  nth_error (columns st) fi = Some fcol ->
  find_index (card_has_id k) (cards fcol) = Some i ->
  nth_error (cards fcol) i = Some cd ->
  find_index (col_has_id t) (columns st) = Some ti ->
  snd (moveCard st f t k idx) = Normal /\
  card_count (fst (moveCard st f t k idx)) = card_count st /\
  exists dcol' p, nth_error (columns (fst (moveCard st f t k idx))) ti = Some dcol' /\
                  nth_error (cards dcol') p = Some cd.
Proof.
  intros Hf Hc Hk Hd Ht.
  rewrite (moveCard_resolved st f t k fi fcol i cd ti idx Hf Hc Hk Hd Ht); simpl.
  destruct (find_index_some _ _ _ Ht) as (dcol & Hdc & _).
  pose proof (nth_error_dest_after_removal (columns st) fi ti i fcol dcol Hc Hdc) as Hdest.
  set (d1 := if Nat.eqb fi ti then splice_out_card i fcol else dcol) in Hdest.
  assert (Hi : (i < length (cards fcol))%nat) by (eapply nth_error_lt; eauto).
  split; [reflexivity|]. split.
  - unfold card_count; simpl.
    pose proof (col_count_update ti (splice_in_card (final_index f t i idx) cd)
                  (update_at fi (splice_out_card i) (columns st)) d1 Hdest) as H2.
    pose proof (col_count_update fi (splice_out_card i) (columns st) fcol Hc) as H1.
    rewrite splice_in_card_count in H2.
    pose proof (length_remove_at i (cards fcol) Hi) as H3.
    change (cards (splice_out_card i fcol)) with (remove_at i (cards fcol)) in H1. lia.
  - exists (splice_in_card (final_index f t i idx) cd d1).
    exists (insert_index (final_index f t i idx) (length (cards d1))).
    split; [apply nth_error_update_eq; exact Hdest | apply splice_in_card_at].
Qed.

(** ** C10: the other cards and columns *)

(** C10. When all three identifiers resolve (source column [fcol] at index
    [fi], the card [cd] at index [i] of it, destination index [ti]), every
    other column is unchanged, and the cards other than the moved one keep
    their relative order: a move between two columns leaves the source with
    its cards minus [cd] and the destination with its cards plus [cd] at some
    position [p]; a move inside one column leaves its cards minus [cd] with
    [cd] inserted at some position [p]. *)
Theorem moveCard_preserves_order st f t k fi fcol i cd ti idx :
  find_index (col_has_id f) (columns st) = Some fi ->
  nth_error (columns st) fi = Some fcol ->
  find_index (card_has_id k) (cards fcol) = Some i ->
  nth_error (cards fcol) i = Some cd ->
  find_index (col_has_id t) (columns st) = Some ti ->
  let st' := fst (moveCard st f t k idx) in
  snd (moveCard st f t k idx) = Normal /\
  (forall n, n <> fi -> n <> ti -> nth_error (columns st') n = nth_error (columns st) n) /\
  (fi <> ti -> exists dcol scol' dcol' p,
     nth_error (columns st) ti = Some dcol /\
     nth_error (columns st') fi = Some scol' /\
     cards scol' = remove_at i (cards fcol) /\
     nth_error (columns st') ti = Some dcol' /\
     nth_error (cards dcol') p = Some cd /\
     remove_at p (cards dcol') = cards dcol) /\
  (fi = ti -> exists col' p,
     nth_error (columns st') fi = Some col' /\
     nth_error (cards col') p = Some cd /\
     remove_at p (cards col') = remove_at i (cards fcol)).
Proof.
  intros Hf Hc Hk Hd Ht st'. subst st'.
  rewrite (moveCard_resolved st f t k fi fcol i cd ti idx Hf Hc Hk Hd Ht); simpl.
  destruct (find_index_some _ _ _ Ht) as (dcol & Hdc & _).
  pose proof (nth_error_dest_after_removal (columns st) fi ti i fcol dcol Hc Hdc) as Hdest.
  set (fx := final_index f t i idx).
  split; [reflexivity|]. split; [|split].
  - intros n Hn1 Hn2.
    rewrite nth_error_update_neq by congruence.
    apply nth_error_update_neq; congruence.
  - intros Hne. apply Nat.eqb_neq in Hne as Hne'. rewrite Hne' in Hdest.
    exists dcol, (splice_out_card i fcol), (splice_in_card fx cd dcol),
      (insert_index fx (length (cards dcol))).
    split; [exact Hdc|]. split.
    + rewrite nth_error_update_neq by congruence. apply nth_error_update_eq; exact Hc.
    + split; [reflexivity|]. split; [apply nth_error_update_eq; exact Hdest|].
      split; [apply splice_in_card_at | apply splice_in_card_rest].
  - intros <-. rewrite Nat.eqb_refl in Hdest.
    exists (splice_in_card fx cd (splice_out_card i fcol)),
      (insert_index fx (length (cards (splice_out_card i fcol)))).
    split; [apply nth_error_update_eq; exact Hdest|].
    split; [apply splice_in_card_at | apply splice_in_card_rest].
Qed.

Lemma moveCard_same_column_reorder_witness :
  find_index (col_has_id (js "a")) (columns ex_board) = Some O /\
  nth_error (columns ex_board) 0 = Some ex_col_a /\
  find_index (card_has_id (js "c1")) (cards ex_col_a) = Some O /\
  nth_error (cards ex_col_a) 0 = Some (mk_card "c1" "X") /\
  ((forall j, (Z.of_nat 0 < j)%Z -> (j <= Z.of_nat (length (cards ex_col_a)))%Z ->
     exists col',
       snd (moveCard ex_board (js "a") (js "a") (js "c1") (Some j)) = Normal /\
       nth_error (columns (fst (moveCard ex_board (js "a") (js "a") (js "c1") (Some j)))) 0
         = Some col' /\
       nth_error (cards col') (Z.to_nat (j - 1)) = Some (mk_card "c1" "X")) /\
   (exists col',
     snd (moveCard ex_board (js "a") (js "a") (js "c1") None) = Normal /\
     nth_error (columns (fst (moveCard ex_board (js "a") (js "a") (js "c1") None))) 0
       = Some col' /\
     cards col' = remove_at 0 (cards ex_col_a) ++ [mk_card "c1" "X"])).
Proof.
  split; [vm_compute; reflexivity|]. split; [vm_compute; reflexivity|].
  split; [vm_compute; reflexivity|]. split; [vm_compute; reflexivity|].
  apply moveCard_same_column_reorder; vm_compute; reflexivity.
Defined.

Lemma moveCard_conserves_witness :
  find_index (col_has_id (js "a")) (columns ex_board) = Some O /\
  nth_error (columns ex_board) 0 = Some ex_col_a /\
  find_index (card_has_id (js "c2")) (cards ex_col_a) = Some 1%nat /\
  nth_error (cards ex_col_a) 1 = Some (mk_card "c2" "Y") /\
  find_index (col_has_id (js "b")) (columns ex_board) = Some 1%nat /\
  (snd (moveCard ex_board (js "a") (js "b") (js "c2") (Some 0%Z)) = Normal /\
   card_count (fst (moveCard ex_board (js "a") (js "b") (js "c2") (Some 0%Z)))
     = card_count ex_board /\
   exists dcol' p,
     nth_error (columns (fst (moveCard ex_board (js "a") (js "b") (js "c2") (Some 0%Z)))) 1
       = Some dcol' /\
     nth_error (cards dcol') p = Some (mk_card "c2" "Y")).
Proof.
  split; [vm_compute; reflexivity|]. split; [vm_compute; reflexivity|].
  split; [vm_compute; reflexivity|]. split; [vm_compute; reflexivity|].
  split; [vm_compute; reflexivity|].
  apply (moveCard_conserves ex_board (js "a") (js "b") (js "c2") 0 ex_col_a 1
           (mk_card "c2" "Y") 1 (Some 0%Z)); vm_compute; reflexivity.
Defined.

Lemma moveCard_preserves_order_witness :
  find_index (col_has_id (js "a")) (columns ex_board) = Some O /\
  nth_error (columns ex_board) 0 = Some ex_col_a /\
  find_index (card_has_id (js "c2")) (cards ex_col_a) = Some 1%nat /\
  nth_error (cards ex_col_a) 1 = Some (mk_card "c2" "Y") /\
  find_index (col_has_id (js "b")) (columns ex_board) = Some 1%nat /\
  snd (moveCard ex_board (js "a") (js "b") (js "c2") None) = Normal.
Proof.
  split; [vm_compute; reflexivity|]. split; [vm_compute; reflexivity|].
  split; [vm_compute; reflexivity|]. split; [vm_compute; reflexivity|].
  split; [vm_compute; reflexivity|].
  apply (moveCard_preserves_order ex_board (js "a") (js "b") (js "c2") 0 ex_col_a 1
           (mk_card "c2" "Y") 1 None); vm_compute; reflexivity.
Defined.

(** ** C5: [move-column] *)

Lemma nth_error_insert_before {A} n (x : A) l m :
  (m < n)%nat -> (n <= length l)%nat -> nth_error (insert_at n x l) m = nth_error l m.
Proof.
  revert l m; induction n as [|n IH]; intros l m Hm Hn; [lia|].
  destruct l as [|y t]; simpl in Hn; [lia|].
  destruct m as [|m]; [reflexivity|].
  unfold insert_at in *; simpl. apply IH; lia.
Qed.

Lemma nth_error_insert_after {A} n (x : A) l m :
  (n <= m)%nat -> (n <= length l)%nat -> nth_error (insert_at n x l) (S m) = nth_error l m.
Proof.
  revert l m; induction n as [|n IH]; intros l m Hm Hn; [reflexivity|].
  destruct l as [|y t]; simpl in Hn; [lia|].
  destruct m as [|m]; [lia|].
  unfold insert_at in *; simpl. apply IH; lia.
Qed.

Lemma nth_error_remove_before {A} n (l : list A) m :
  (m < n)%nat -> nth_error (remove_at n l) m = nth_error l m.
Proof.
  revert l m; induction n as [|n IH]; intros l m Hm; [lia|].
  destruct l as [|y t]; [reflexivity|].
  destruct m as [|m]; [reflexivity|].
  unfold remove_at in *; simpl. apply IH; lia.
Qed.

Lemma nth_error_remove_after {A} n (l : list A) m :
  (n <= m)%nat -> nth_error (remove_at n l) m = nth_error l (S m).
Proof.
  revert l m; induction n as [|n IH]; intros l m Hm.
  - unfold remove_at; simpl. destruct l; [destruct m|]; reflexivity.
  - destruct l as [|y t]; [destruct m; reflexivity|].
    destruct m as [|m]; [lia|].
    unfold remove_at in *; simpl. apply IH; lia.
Qed.

Lemma replace_prefix_same (t doc : jstr) : replace_prefix doc t doc = t.
Proof. unfold replace_prefix. rewrite skipn_all, app_nil_r. reflexivity. Qed.

(** C5. When [fromId] and [toId] resolve to two different columns, at
    indices [fi] and [ti], the [move-column] handler writes the board whose
    columns are those without the moved one, with the moved column inserted
    at [ti], the dropped-on column's position before the move: the moved
    column ends in that slot and the other columns keep their order. When
    the move goes left ([ti < fi]) the dropped-on column follows it
    directly; when it goes right ([fi < ti]) the dropped-on column precedes
    it directly. *)
Theorem move_column_to_target_slot doc data st fromId toId fi ti col :
  json_parse doc = Some data ->
  board_of_json data = Some st ->
  find_index (col_has_id fromId) (columns st) = Some fi ->
  find_index (col_has_id toId) (columns st) = Some ti ->
  fi <> ti ->
  nth_error (columns st) fi = Some col ->
  exists st',
    onDidReceiveMessage doc (MMoveColumn fromId toId)
      = Now (Written (stringify (board_to_json st'))) /\
    columns st' = insert_at ti col (remove_at fi (columns st)) /\
    nth_error (columns st') ti = Some col /\
    remove_at ti (columns st') = remove_at fi (columns st) /\
    ((ti < fi)%nat -> nth_error (columns st') (S ti) = nth_error (columns st) ti) /\
    ((fi < ti)%nat -> nth_error (columns st') (ti - 1) = nth_error (columns st) ti).
Proof.
  intros Hp Hb Hf Ht Hne Hc.
  assert (Hfl : (fi < length (columns st))%nat) by (eapply nth_error_lt; eauto).
  destruct (find_index_some _ _ _ Ht) as (tcol & Htc & _).
  assert (Htl : (ti < length (columns st))%nat) by (eapply nth_error_lt; eauto).
  pose proof (length_remove_at fi (columns st) Hfl) as Hlen.
  exists {| columns := insert_at ti col (remove_at fi (columns st)) |}.
  split.
  - unfold onDidReceiveMessage. rewrite Hp, Hb. simpl.
    rewrite Hf, Ht. apply Nat.eqb_neq in Hne. rewrite Hne, Hc.
    rewrite replace_prefix_same. reflexivity.
  - cbn [columns]. split; [reflexivity|]. split; [apply nth_error_insert_at; lia|].
    split; [apply remove_insert_at; lia|]. split.
    + intros Hlt. rewrite nth_error_insert_after by lia.
      apply nth_error_remove_before; lia.
    + intros Hlt. rewrite nth_error_insert_before by lia.
      rewrite nth_error_remove_after by lia. f_equal; lia.
Qed.

(** ** The JSON round trip *)

Lemma hex_value_digit d : 0 <= d < 16 -> hex_value (hex_digit d) = Some d.
Proof.
  intros H.
  assert (d = 0 \/ d = 1 \/ d = 2 \/ d = 3 \/ d = 4 \/ d = 5 \/ d = 6 \/ d = 7 \/
          d = 8 \/ d = 9 \/ d = 10 \/ d = 11 \/ d = 12 \/ d = 13 \/ d = 14 \/ d = 15)
    as Hd by lia.
  repeat destruct Hd as [-> | Hd]; try reflexivity; subst; reflexivity.
Qed.

Lemma hex4_escape c :
  0 <= c < 65536 ->
  hex4 (hex_digit (c / 4096 mod 16)) (hex_digit (c / 256 mod 16))
       (hex_digit (c / 16 mod 16)) (hex_digit (c mod 16)) = Some c.
Proof.
  intros H. unfold hex4.
  rewrite !hex_value_digit by (apply Z.mod_pos_bound; lia).
  f_equal.
  assert (E1 : c = 16 * (c / 16) + c mod 16) by (apply Z.div_mod; lia).
  assert (E2 : c / 16 = 16 * (c / 256) + c / 16 mod 16).
  { replace 256 with (16 * 16) by reflexivity. rewrite <- Z.div_div by lia.
    apply Z.div_mod; lia. }
  assert (E3 : c / 256 = 16 * (c / 4096) + c / 256 mod 16).
  { replace 4096 with (256 * 16) by reflexivity. rewrite <- Z.div_div by lia.
    apply Z.div_mod; lia. }
  assert (E4 : c / 4096 mod 16 = c / 4096).
  { apply Z.mod_small. split; [apply Z.div_pos; lia | apply Z.div_lt_upper_bound; lia]. }
  rewrite E4.
  remember (c / 16) as q1. remember (c / 256) as q2. remember (c / 4096) as q3.
  remember (c mod 16) as m1. remember (q1 mod 16) as m2. remember (q2 mod 16) as m3.
  lia.
Qed.

Lemma parse_unicode_escape c rest :
  0 <= c < 65536 ->
  parse_str (unicode_escape c ++ rest)
  = match parse_str rest with Some (x, r) => Some (c :: x, r) | None => None end.
Proof.
  intros H. unfold unicode_escape. cbn [app]. cbn [parse_str].
  rewrite (hex4_escape c H). reflexivity.
Qed.

(** An unescaped code unit is read back as itself. *)
Lemma parse_str_plain c rest :
  (c =? 34) = false -> (c =? 92) = false -> (c <? 32) = false ->
  parse_str (c :: rest)
  = match parse_str rest with Some (x, r) => Some (c :: x, r) | None => None end.
Proof. intros H1 H2 H3. cbn [parse_str]. rewrite H1, H2, H3. reflexivity. Qed.

Lemma parse_quote_units s r :
  code_units s -> parse_str (quote_units s ++ 34 :: r) = Some (s, r).
Proof.
  revert r. induction s as [s IH] using (induction_ltof1 _ (@length Z)).
  unfold ltof in IH. intros r Hs.
  destruct s as [|c t]; [reflexivity|].
  inversion Hs as [|? ? Hc Ht]; subst.
  assert (IHt : parse_str (quote_units t ++ 34 :: r) = Some (t, r))
    by (apply IH; simpl; auto).
  cbn [quote_units].
  destruct (c =? 34) eqn:E34;
    [apply Z.eqb_eq in E34; subst; cbn [app parse_str]; simpl; rewrite IHt; reflexivity|].
  destruct (c =? 92) eqn:E92;
    [apply Z.eqb_eq in E92; subst; cbn [app parse_str]; simpl; rewrite IHt; reflexivity|].
  destruct (c =? 8) eqn:E8;
    [apply Z.eqb_eq in E8; subst; cbn [app parse_str]; simpl; rewrite IHt; reflexivity|].
  destruct (c =? 12) eqn:E12;
    [apply Z.eqb_eq in E12; subst; cbn [app parse_str]; simpl; rewrite IHt; reflexivity|].
  destruct (c =? 10) eqn:E10;
    [apply Z.eqb_eq in E10; subst; cbn [app parse_str]; simpl; rewrite IHt; reflexivity|].
  destruct (c =? 13) eqn:E13;
    [apply Z.eqb_eq in E13; subst; cbn [app parse_str]; simpl; rewrite IHt; reflexivity|].
  destruct (c =? 9) eqn:E9;
    [apply Z.eqb_eq in E9; subst; cbn [app parse_str]; simpl; rewrite IHt; reflexivity|].
  destruct (c <? 32) eqn:E32.
  { rewrite <- app_assoc, parse_unicode_escape by lia. rewrite IHt. reflexivity. }
  destruct (is_leading c) eqn:EL.
  { destruct t as [|d t'].
    - cbn [app]. rewrite parse_unicode_escape by lia. reflexivity.
    - destruct (is_trailing d) eqn:ET.
      + inversion Ht as [|? ? Hd Ht']; subst.
        assert (IHt' : parse_str (quote_units t' ++ 34 :: r) = Some (t', r))
          by (apply IH; simpl; auto).
        unfold is_trailing in ET. apply andb_true_iff in ET as [ET1 ET2].
        apply Z.leb_le in ET1.
        cbn [app]. rewrite parse_str_plain by (apply Z.eqb_neq || apply Z.ltb_ge; lia).
        rewrite parse_str_plain
          by (first [apply Z.eqb_neq | apply Z.ltb_ge]; lia).
        rewrite IHt'. reflexivity.
      + rewrite <- app_assoc, parse_unicode_escape by lia. rewrite IHt. reflexivity. }
  destruct (is_trailing c) eqn:ET.
  { rewrite <- app_assoc, parse_unicode_escape by lia. rewrite IHt. reflexivity. }
  cbn [app]. rewrite parse_str_plain by assumption. rewrite IHt. reflexivity.
Qed.

Lemma parse_quote s r : code_units s -> parse_str (tl (quote s) ++ r) = Some (s, r).
Proof.
  intros Hs. unfold quote; cbn [tl]. rewrite <- app_assoc. apply parse_quote_units, Hs.
Qed.

Lemma skip_ws_app w s : all_ws w -> skip_ws (w ++ s) = skip_ws s.
Proof.
  unfold all_ws; induction w as [|c w IH]; intros H; [reflexivity|].
  simpl in H. apply andb_true_iff in H as [H1 H2]. simpl. rewrite H1. auto.
Qed.

Lemma all_ws_app a b : all_ws a -> all_ws b -> all_ws (a ++ b).
Proof. unfold all_ws. rewrite forallb_app. intros -> ->. reflexivity. Qed.

Lemma all_ws_gap ind : all_ws ind -> all_ws (ind ++ gap).
Proof. intros H. apply all_ws_app; [exact H | reflexivity]. Qed.

Lemma stringify_head ind v r :
  json_ok v -> exists t, stringify_at ind v ++ r = head_unit v :: t.
Proof.
  intros Hok. destruct v as [| [] | l | s | [|x xs] | [|[k x] xs]]; simpl in *;
    try contradiction; eexists; reflexivity.
Qed.

Lemma skip_ws_nonws c s : is_ws c = false -> skip_ws (c :: s) = c :: s.
Proof. intros H. simpl. rewrite H. reflexivity. Qed.

Ltac ws_solve :=
  solve [ repeat first [ assumption | reflexivity | apply all_ws_gap | apply all_ws_app ] ].

Lemma parse_elems_rt ind : all_ws ind -> forall xs x acc r f,
  Forall roundtrips (x :: xs) ->
  fold_right (fun y P => json_ok y /\ P) True (x :: xs) ->
  (list_sum (map (fun y => S (nodes y)) (x :: xs)) <= f)%nat ->
  parse_elems f (nl ++ (ind ++ gap) ++ stringify_at (ind ++ gap) x ++
    List.concat (map (fun y => js "," ++ nl ++ (ind ++ gap) ++ stringify_at (ind ++ gap) y) xs)
    ++ nl ++ ind ++ js "]" ++ r) acc
  = Some (JArr (rev acc ++ x :: xs), r).
Proof.
  intros Hind. change (js ",") with [44]. change (js "]") with [93].
  induction xs as [|y ys IH]; intros x acc r f Hrt Hok Hf;
    inversion Hrt as [|? ? Hx Hrest]; subst; destruct Hok as [Hokx Hoks];
    (destruct f as [|f]; [simpl in Hf; lia|]); cbn [parse_elems].
  - rewrite app_assoc.
    rewrite (Hx Hokx (ind ++ gap) (nl ++ ind ++ gap)) by (ws_solve || (simpl in Hf; lia)).
    cbn [List.concat map app].
    rewrite skip_ws_app by ws_solve. rewrite skip_ws_app by ws_solve.
    reflexivity.
  - rewrite app_assoc.
    rewrite (Hx Hokx (ind ++ gap) (nl ++ ind ++ gap)) by (ws_solve || (simpl in Hf; lia)).
    cbn [List.concat map]. rewrite <- !app_assoc. cbn [app].
    rewrite skip_ws_nonws by reflexivity. cbn beta iota.
    assert (E := IH y (x :: acc) r f Hrest Hoks ltac:(simpl in *; lia)).
    rewrite <- !app_assoc in E. cbn [app] in E. rewrite E.
    cbn [rev]. rewrite <- app_assoc. reflexivity.
Qed.

Lemma parse_members_rt ind : all_ws ind -> forall xs k x acc r f,
  Forall (fun kv => roundtrips (snd kv)) ((k, x) :: xs) ->
  fold_right (fun kv P => code_units (fst kv) /\ json_ok (snd kv) /\ P) True ((k, x) :: xs) ->
  (list_sum (map (fun kv => S (nodes (snd kv))) ((k, x) :: xs)) <= f)%nat ->
  parse_members f (nl ++ (ind ++ gap) ++ quote k ++ js ": " ++ stringify_at (ind ++ gap) x ++
    List.concat (map (fun '(k', y) => js "," ++ nl ++ (ind ++ gap) ++ quote k'
                                        ++ js ": " ++ stringify_at (ind ++ gap) y) xs)
    ++ nl ++ ind ++ js "}" ++ r) acc
  = Some (JObj (rev acc ++ (k, x) :: xs), r).
Proof.
  intros Hind. change (js ",") with [44]. change (js "}") with [125].
  change (js ": ") with [58; 32].
  induction xs as [|[k' y] ys IH]; intros k x acc r f Hrt Hok Hf;
    inversion Hrt as [|? ? Hx Hrest]; subst; destruct Hok as (Hk & Hokx & Hoks);
    (destruct f as [|f]; [simpl in Hf; lia|]); cbn [parse_members];
    (rewrite skip_ws_app by ws_solve; rewrite skip_ws_app by ws_solve);
    unfold quote at 1; cbn [app]; rewrite skip_ws_nonws by reflexivity; cbn beta iota;
    rewrite <- !app_assoc; cbn [app];
    rewrite parse_quote_units by exact Hk; cbn beta iota;
    rewrite skip_ws_nonws by reflexivity; cbn beta iota;
    (assert (E : forall R, parse_value f (32 :: stringify_at (ind ++ gap) x ++ R) = Some (x, R))
       by (intros R; exact (Hx Hokx (ind ++ gap) [32] R f ltac:(ws_solve) eq_refl
                              ltac:(simpl in *; lia))));
    rewrite E; cbn beta iota.
  - cbn [List.concat map app].
    rewrite skip_ws_app by ws_solve. rewrite skip_ws_app by ws_solve.
    reflexivity.
  - cbn [List.concat map]. cbn beta iota. rewrite <- !app_assoc. cbn [app].
    rewrite skip_ws_nonws by reflexivity. cbn beta iota.
    repeat ((rewrite <- !app_assoc) || (progress cbn [app])).
    assert (E2 := IH k' y ((k, x) :: acc) r f Hrest Hoks ltac:(simpl in *; lia)).
    repeat ((rewrite <- !app_assoc in E2) || (progress cbn [app] in E2)). rewrite E2.
    cbn [rev]. rewrite <- app_assoc. reflexivity.
Qed.

Ltac norm_app := repeat ((rewrite <- !app_assoc) || (progress cbn [app])).
Ltac norm_app_in H := repeat ((rewrite <- !app_assoc in H) || (progress cbn [app] in H)).

Lemma head_unit_nonws v : is_ws (head_unit v) = false.
Proof. destruct v as [| [] | | | |]; reflexivity. Qed.

Lemma parse_stringify : forall v, roundtrips v.
Proof.
  apply json_ind'.
  - intros _ ind w r f Hind Hw Hf. destruct f as [|f]; [simpl in Hf; lia|].
    cbn [parse_value]. rewrite skip_ws_app by exact Hw. reflexivity.
  - intros b _ ind w r f Hind Hw Hf. destruct f as [|f]; [simpl in Hf; lia|].
    cbn [parse_value]. rewrite skip_ws_app by exact Hw. destruct b; reflexivity.
  - intros l Hok. contradiction.
  - intros s Hok ind w r f Hind Hw Hf. destruct f as [|f]; [simpl in Hf; lia|].
    cbn [parse_value]. rewrite skip_ws_app by exact Hw.
    cbn [stringify_at]. unfold quote. norm_app.
    rewrite skip_ws_nonws by reflexivity. cbn beta iota.
    rewrite parse_quote_units by exact Hok. reflexivity.
  - intros l Hall Hok ind w r f Hind Hw Hf. destruct f as [|f]; [simpl in Hf; lia|].
    cbn [parse_value]. rewrite skip_ws_app by exact Hw.
    destruct l as [|x xs]; [reflexivity|].
    assert (Hpe := parse_elems_rt ind Hind xs x [] r f Hall Hok ltac:(simpl in *; lia)).
    cbn [stringify_at]. change (js "[") with [91]. norm_app.
    rewrite skip_ws_nonws by reflexivity. cbn beta iota.
    repeat (rewrite skip_ws_app by ws_solve).
    destruct Hok as [Hokx _].
    match goal with
    | |- context [skip_ws (stringify_at ?i x ++ ?R)] =>
        destruct (stringify_head i x R Hokx) as [t' Ht'];
        assert (Hs : skip_ws (stringify_at i x ++ R) = head_unit x :: t')
          by (rewrite Ht'; apply skip_ws_nonws, head_unit_nonws);
        rewrite Hs; clear Hs Ht'
    end.
    norm_app_in Hpe.
    destruct x as [| [] | | | |]; try contradiction; cbn [head_unit]; cbn beta iota;
      exact Hpe.
  - intros m Hall Hok ind w r f Hind Hw Hf. destruct f as [|f]; [simpl in Hf; lia|].
    cbn [parse_value]. rewrite skip_ws_app by exact Hw.
    destruct m as [|[k x] xs]; [reflexivity|].
    assert (Hpm := parse_members_rt ind Hind xs k x [] r f Hall Hok ltac:(simpl in *; lia)).
    cbn [stringify_at]. change (js "{") with [123]. norm_app.
    rewrite skip_ws_nonws by reflexivity. cbn beta iota.
    repeat (rewrite skip_ws_app by ws_solve).
    match goal with
    | |- context [skip_ws (quote k ++ ?R)] =>
        assert (Hs : skip_ws (quote k ++ R) = 34 :: quote_units k ++ 34 :: R)
          by (unfold quote; norm_app; apply skip_ws_nonws; reflexivity);
        rewrite Hs; clear Hs
    end.
    cbn beta iota. norm_app_in Hpm. exact Hpm.
Qed.

(** Each parser step consumes at least one code unit of the printed text. *)
Lemma nodes_le_length : forall v, json_ok v -> forall ind,
  (nodes v <= length (stringify_at ind v))%nat.
Proof.
  apply (json_ind' (fun v => json_ok v -> forall ind, (nodes v <= length (stringify_at ind v))%nat)).
  - intros _ ind; simpl; lia.
  - intros [] _ ind; simpl; lia.
  - intros l H; contradiction.
  - intros s _ ind. cbn [stringify_at nodes]. unfold quote. cbn [length].
    rewrite length_app. simpl. lia.
  - intros [|x xs] Hall Hok ind; [simpl; lia|].
    inversion Hall as [|? ? Hx Hxs]; subst. destruct Hok as [Hokx Hoks].
    assert (Hrest : (list_sum (map (fun y => S (nodes y)) xs)
      <= length (List.concat (map (fun y => js "," ++ nl ++ (ind ++ gap)
                                     ++ stringify_at (ind ++ gap) y) xs)))%nat).
    { clear Hall Hx Hokx. induction xs as [|y ys IH]; [simpl; lia|].
      inversion Hxs as [|? ? Hy Hys]; subst. destruct Hoks as [Hoky Hoks].
      cbn [map List.concat]. cbn [list_sum fold_right]. rewrite !length_app.
      specialize (Hy Hoky (ind ++ gap)). specialize (IH ltac:(assumption) ltac:(assumption)).
      change (length (js ",")) with 1%nat. change (length nl) with 1%nat. unfold list_sum in *. lia. }
    cbn [stringify_at nodes map]. cbn [list_sum fold_right]. rewrite !length_app.
    specialize (Hx Hokx (ind ++ gap)).
    change (length (js "[")) with 1%nat. change (length (js "]")) with 1%nat.
    change (length nl) with 1%nat. unfold list_sum in *. lia.
  - intros [|[k x] xs] Hall Hok ind; [simpl; lia|].
    inversion Hall as [|? ? Hx Hxs]; subst. destruct Hok as (_ & Hokx & Hoks).
    assert (Hrest : (list_sum (map (fun kv => S (nodes (snd kv))) xs)
      <= length (List.concat (map (fun '(k', y) => js "," ++ nl ++ (ind ++ gap) ++ quote k'
                                     ++ js ": " ++ stringify_at (ind ++ gap) y) xs)))%nat).
    { clear Hall Hx Hokx. induction xs as [|[k' y] ys IH]; [simpl; lia|].
      inversion Hxs as [|? ? Hy Hys]; subst. destruct Hoks as (_ & Hoky & Hoks).
      cbn [map List.concat]. cbn [list_sum fold_right]. rewrite !length_app.
      specialize (Hy Hoky (ind ++ gap)). specialize (IH ltac:(assumption) ltac:(assumption)). cbn [snd] in *.
      change (length (js ",")) with 1%nat. change (length nl) with 1%nat. unfold list_sum in *. lia. }
    cbn [stringify_at nodes map snd]. cbn [list_sum fold_right snd]. rewrite !length_app.
    specialize (Hx Hokx (ind ++ gap)). cbn [snd] in Hx.
    change (length (js "{")) with 1%nat. change (length (js "}")) with 1%nat.
    change (length nl) with 1%nat. unfold list_sum in *. lia.
Qed.

Lemma json_parse_stringify v : json_ok v -> json_parse (stringify v) = Some v.
Proof.
  intros Hok. unfold json_parse, stringify.
  pose proof (parse_stringify v Hok [] [] [] (length (stringify_at [] v))
                eq_refl eq_refl (nodes_le_length v Hok [])) as H.
  rewrite app_nil_r in H. cbn [app] in H. rewrite H. reflexivity.
Qed.

(** ** C3: the document round trip *)

Lemma units_ok_code_units s : units_ok s = true -> code_units s.
Proof.
  unfold units_ok, code_units. intros H. apply Forall_forall. intros u Hu.
  rewrite forallb_forall in H. specialize (H u Hu).
  apply andb_true_iff in H as [H1 H2]. apply Z.leb_le in H1. apply Z.ltb_lt in H2. lia.
Qed.

Lemma code_units_js s : code_units (js s).
Proof.
  unfold code_units, js. induction s as [|a s IH]; cbn [list_ascii_of_string map];
    constructor; [pose proof (Ascii.nat_ascii_bounded a); lia | exact IH].
Qed.

Lemma json_ok_arr_map {A} (f : A -> json) l :
  (forall x, In x l -> json_ok (f x)) -> json_ok (JArr (map f l)).
Proof.
  induction l as [|x l IH]; intros H; cbn [map json_ok fold_right]; [exact I|].
  split; [apply H; left; reflexivity|]. apply IH. intros y Hy; apply H; right; exact Hy.
Qed.

Lemma card_json_ok c : card_wf c = true -> json_ok (card_to_json c).
Proof.
  unfold card_wf. intros H. apply andb_true_iff in H as [H1 H2].
  cbn [card_to_json json_ok fold_right fst snd].
  repeat split; (apply code_units_js || (apply units_ok_code_units; assumption)).
Qed.

Lemma column_json_ok c : column_wf c = true -> json_ok (column_to_json c).
Proof.
  unfold column_wf. intros H. apply andb_true_iff in H as [H H3].
  apply andb_true_iff in H as [H1 H2].
  cbn [column_to_json json_ok fold_right fst snd].
  repeat split; try (apply code_units_js || (apply units_ok_code_units; assumption)).
  apply json_ok_arr_map. intros x Hx. apply card_json_ok.
  rewrite forallb_forall in H3. apply H3, Hx.
Qed.

Lemma board_json_ok b : board_wf b = true -> json_ok (board_to_json b).
Proof.
  unfold board_wf. intros H. cbn [board_to_json json_ok fold_right fst snd].
  repeat split; [apply code_units_js|]. apply json_ok_arr_map. intros x Hx.
  apply column_json_ok. rewrite forallb_forall in H. apply H, Hx.
Qed.

Lemma map_opt_map {A B} (f : B -> option A) (g : A -> B) l :
  (forall x, f (g x) = Some x) -> map_opt f (map g l) = Some l.
Proof.
  intros H. induction l as [|x l IH]; cbn [map map_opt]; [reflexivity|].
  rewrite H, IH. reflexivity.
Qed.

Lemma card_of_to c : card_of_json (card_to_json c) = Some c.
Proof. destruct c as [i t]. reflexivity. Qed.

Lemma column_of_to c : column_of_json (column_to_json c) = Some c.
Proof.
  destruct c as [i t cs]. unfold column_of_json, column_to_json. cbn [cards col_id col_title].
  change (get_str (js "id") _) with (Some i).
  change (get_str (js "title") _) with (Some t).
  change (get_prop (js "cards") _) with (Some (JArr (map card_to_json cs))).
  cbv iota beta. rewrite (map_opt_map _ _ _ card_of_to). reflexivity.
Qed.

Lemma board_of_to b : board_of_json (board_to_json b) = Some b.
Proof.
  destruct b as [cols]. unfold board_of_json, board_to_json. cbn [columns].
  change (get_prop (js "columns") _) with (Some (JArr (map column_to_json cols))).
  cbv iota beta. rewrite (map_opt_map _ _ _ column_of_to). reflexivity.
Qed.

(** C3. [JSON.stringify(data, null, 2)] of a board, parsed back with
    [JSON.parse], is the same JSON value, and it is read back as the same
    board: the same columns and cards in the same order, with the same ids
    and titles. *)
Theorem board_serialize_reparse b :
  board_wf b = true ->
  json_parse (stringify (board_to_json b)) = Some (board_to_json b) /\
  board_of_json (board_to_json b) = Some b.
Proof.
  intros Hwf. split.
  - apply json_parse_stringify, board_json_ok, Hwf.
  - apply board_of_to.
Qed.

Lemma board_serialize_reparse_witness :
  board_wf ex_board = true /\
  json_parse (stringify (board_to_json ex_board)) = Some (board_to_json ex_board) /\
  board_of_json (board_to_json ex_board) = Some ex_board.
Proof.
  split; [vm_compute; reflexivity|].
  apply board_serialize_reparse. vm_compute. reflexivity.
Defined.

(** ** The handler on messages with identifiers that do not resolve *)

(** The example board as read from [ex_doc]. *)
Lemma ex_doc_parse : json_parse ex_doc = Some (board_to_json ex_board).
Proof. vm_compute. reflexivity. Qed.

Lemma handler_sync doc data b m :
  json_parse doc = Some data -> board_of_json data = Some b ->
  dispatch_sync m b = None ->
  match m with MUpdate _ | MAddColumn | MAddCard _ => False | _ => True end ->
  onDidReceiveMessage doc m = Now Dropped.
Proof.
  intros Hp Hb Hd Hm. unfold onDidReceiveMessage. rewrite Hp.
  destruct m; try contradiction; try reflexivity; rewrite Hb, Hd; reflexivity.
Qed.

(** C4. On a board read from the document, a [delete-column],
    [rename-column], [delete-card] or [move-column] message whose column id
    does not resolve, and a [delete-card] message whose card id does not
    resolve in a resolving column, end without a write; so does an
    [add-card] message with an unresolved column, whatever the prompt
    answers. In the webview, a card drop on a resolving column whose source
    column id does not resolve throws in [moveCard] and posts nothing; one
    whose source column resolves but whose card id does not resolve leaves
    the board as it is and still posts it as an [update], which the host
    writes. *)
Theorem stale_ids_handling doc data b :
  json_parse doc = Some data -> board_of_json data = Some b ->
  (forall cid, find_index (col_has_id cid) (columns b) = None ->
     onDidReceiveMessage doc (MDeleteColumn cid) = Now Dropped /\
     (forall t, onDidReceiveMessage doc (MRenameColumn cid t) = Now Dropped) /\
     (forall kid, onDidReceiveMessage doc (MDeleteCard cid kid) = Now Dropped) /\
     (forall other, onDidReceiveMessage doc (MMoveColumn cid other) = Now Dropped /\
                    onDidReceiveMessage doc (MMoveColumn other cid) = Now Dropped) /\
     (exists k, onDidReceiveMessage doc (MAddCard cid) = Prompt k /\
                forall t now doc_now, k t now doc_now = ([], Dropped))) /\
  (forall cid i col kid,
     find_index (col_has_id cid) (columns b) = Some i ->
     nth_error (columns b) i = Some col ->
     find_index (card_has_id kid) (cards col) = None ->
     onDidReceiveMessage doc (MDeleteCard cid kid) = Now Dropped) /\
  (forall st f t kid after idx,
     find_index (col_has_id f) (columns st) = None ->
     drop_index st t after = Some idx ->
     moveCard st f t kid (Some idx) = (st, Threw) /\
     card_ondrop st f t kid after = (st, [])) /\
  (forall st f t kid after idx fi fcol,
     find_index (col_has_id f) (columns st) = Some fi ->
     nth_error (columns st) fi = Some fcol ->
     find_index (card_has_id kid) (cards fcol) = None ->
     drop_index st t after = Some idx ->
     moveCard st f t kid (Some idx) = (st, Normal) /\
     card_ondrop st f t kid after = (st, [MUpdate (board_to_json st)])) /\
  (forall d, onDidReceiveMessage doc (MUpdate d) = Now (Written (stringify d))).
Proof.
  intros Hp Hb. split; [|split; [|split; [|split]]].
  - intros cid Hn. split; [|split; [|split; [|split]]].
    + apply (handler_sync doc data b); auto. cbn. rewrite Hn. reflexivity.
    + intros t. apply (handler_sync doc data b); auto. cbn. rewrite Hn. reflexivity.
    + intros kid. apply (handler_sync doc data b); auto. cbn. rewrite Hn. reflexivity.
    + intros other. split; apply (handler_sync doc data b); auto; cbn; rewrite Hn;
        [reflexivity|]. destruct (find_index (col_has_id other) (columns b)); reflexivity.
    + exists (add_card_k doc data cid). split.
      * unfold onDidReceiveMessage. rewrite Hp. reflexivity.
      * intros t now doc_now. unfold add_card_k.
        destruct (truthy t); [|reflexivity]. rewrite Hb, Hn. reflexivity.
  - intros cid i col kid Hi Hc Hk. apply (handler_sync doc data b); auto.
    cbn. rewrite Hi, Hc, Hk. reflexivity.
  - intros st f t kid after idx Hf Hd.
    assert (Hm : moveCard st f t kid (Some idx) = (st, Threw))
      by (unfold moveCard; rewrite Hf; reflexivity).
    split; [exact Hm|]. unfold card_ondrop, card_drop. rewrite Hd, Hm. reflexivity.
  - intros st f t kid after idx fi fcol Hf Hc Hk Hd.
    assert (Hm : moveCard st f t kid (Some idx) = (st, Normal))
      by (unfold moveCard; rewrite Hf, Hc, Hk; reflexivity).
    split; [exact Hm|]. unfold card_ondrop, card_drop. rewrite Hd, Hm. reflexivity.
  - intros d. unfold onDidReceiveMessage. rewrite Hp, replace_prefix_same. reflexivity.
Qed.

Lemma stale_ids_handling_witness :
  json_parse ex_doc = Some (board_to_json ex_board) /\
  board_of_json (board_to_json ex_board) = Some ex_board /\
  find_index (col_has_id (js "zz")) (columns ex_board) = None /\
  onDidReceiveMessage ex_doc (MDeleteColumn (js "zz")) = Now Dropped.
Proof.
  split; [vm_compute; reflexivity|]. split; [vm_compute; reflexivity|].
  split; [vm_compute; reflexivity|].
  apply (stale_ids_handling ex_doc (board_to_json ex_board) ex_board);
    vm_compute; reflexivity.
Defined.

(** A drag started on the card [c1] of column [a]; before the drop, a
    [data] message replaced the state with the board left by deleting
    column [a] (here through the host's [delete-column]). Dropping the card
    on column [b] throws in [moveCard] at [fromCol.cards]. Had only the card
    been deleted, the drop would change nothing and still post the board,
    which the host writes. *)
Lemma stale_drop_outcomes :
  onDidReceiveMessage ex_doc (MDeleteColumn (js "a"))
    = Now (Written (stringify (board_to_json ex_board_no_a))) /\
  sendData (stringify (board_to_json ex_board_no_a)) = [board_to_json ex_board_no_a] /\
  drop_index ex_board_no_a (js "b") None = Some 0%Z /\
  moveCard ex_board_no_a (js "a") (js "b") (js "c1") (Some 0%Z) = (ex_board_no_a, Threw) /\
  card_ondrop ex_board_no_a (js "a") (js "b") (js "c1") None = (ex_board_no_a, []) /\
  card_ondrop ex_board_no_c1 (js "a") (js "b") (js "c1") None
    = (ex_board_no_c1, [MUpdate (board_to_json ex_board_no_c1)]) /\
  onDidReceiveMessage (stringify (board_to_json ex_board_no_c1))
      (MUpdate (board_to_json ex_board_no_c1))
    = Now (Written (stringify (board_to_json ex_board_no_c1))).
Proof. repeat split; vm_compute; reflexivity. Qed.

(** ** C5 witness *)

Lemma move_column_to_target_slot_witness :
  json_parse ex_doc = Some (board_to_json ex_board) /\
  board_of_json (board_to_json ex_board) = Some ex_board /\
  find_index (col_has_id (js "a")) (columns ex_board) = Some 0%nat /\
  find_index (col_has_id (js "b")) (columns ex_board) = Some 1%nat /\
  nth_error (columns ex_board) 0 = Some ex_col_a /\
  exists st',
    onDidReceiveMessage ex_doc (MMoveColumn (js "a") (js "b"))
      = Now (Written (stringify (board_to_json st'))) /\
    columns st' = insert_at 1 ex_col_a (remove_at 0 (columns ex_board)) /\
    nth_error (columns st') 1 = Some ex_col_a /\
    remove_at 1 (columns st') = remove_at 0 (columns ex_board) /\
    ((1 < 0)%nat -> nth_error (columns st') 2 = nth_error (columns ex_board) 1) /\
    ((0 < 1)%nat -> nth_error (columns st') (1 - 1) = nth_error (columns ex_board) 1).
Proof.
  split; [vm_compute; reflexivity|]. split; [vm_compute; reflexivity|].
  split; [vm_compute; reflexivity|]. split; [vm_compute; reflexivity|].
  split; [vm_compute; reflexivity|].
  apply (move_column_to_target_slot ex_doc (board_to_json ex_board) ex_board
           (js "a") (js "b") 0 1 ex_col_a);
    (vm_compute; reflexivity) || lia.
Defined.

(** ** Comparing strings *)

Lemma jstr_eqb_false (a b : jstr) : jstr_eqb a b = false -> a <> b.
Proof. intros H E. subst b. rewrite jstr_eqb_refl in H. discriminate. Qed.

(** ** The [add-column] and [add-card] prompts *)

Lemma prompt_messages doc data :
  json_parse doc = Some data ->
  onDidReceiveMessage doc MAddColumn = Prompt (add_column_k doc data) /\
  forall cid, onDidReceiveMessage doc (MAddCard cid) = Prompt (add_card_k doc data cid).
Proof. intros Hp. unfold onDidReceiveMessage. rewrite Hp. split; reflexivity. Qed.

Lemma add_column_k_eq doc data b t now doc_now :
  board_of_json data = Some b -> t <> [] ->
  add_column_k doc data (Some t) now doc_now =
  (sendData doc_now,
   Written (replace_prefix doc (stringify (board_to_json
     {| columns := columns b ++ [{| col_id := new_column_id t now; col_title := t; cards := [] |}] |}))
     doc_now)).
Proof.
  intros Hb Ht. unfold add_column_k. destruct t as [|u t]; [contradiction|].
  cbn [truthy]. rewrite Hb. reflexivity.
Qed.

Lemma add_card_k_eq doc data b cid i t now doc_now :
  board_of_json data = Some b -> find_index (col_has_id cid) (columns b) = Some i -> t <> [] ->
  add_card_k doc data cid (Some t) now doc_now =
  (sendData doc_now,
   Written (replace_prefix doc (stringify (board_to_json
     {| columns := update_at i (fun c =>
          {| col_id := col_id c; col_title := col_title c;
             cards := cards c ++ [{| card_id := new_card_id now; card_title := t |}] |})
          (columns b) |}))
     doc_now)).
Proof.
  intros Hb Hi Ht. unfold add_card_k. destruct t as [|u t]; [contradiction|].
  cbn [truthy]. rewrite Hb, Hi. reflexivity.
Qed.

(** C7. A nonempty title given to the [add-column] prompt at time [now]
    adds, at the end, a column whose id is the slug of the title, a [-] and
    the decimal [now]; a nonempty title given to the [add-card] prompt adds,
    at the end of the resolved column, a card whose id is [card-] and the
    decimal [now], without the title. *)
Theorem created_entity_ids doc data b t now doc_now :
  json_parse doc = Some data -> board_of_json data = Some b -> t <> [] ->
  (exists b',
     snd (after_prompt (onDidReceiveMessage doc MAddColumn) (Some t) now doc_now)
       = Written (replace_prefix doc (stringify (board_to_json b')) doc_now) /\
     columns b' = columns b ++
       [{| col_id := slug t ++ js "-" ++ number_to_string now; col_title := t; cards := [] |}]) /\
  (forall cid i col, find_index (col_has_id cid) (columns b) = Some i ->
     nth_error (columns b) i = Some col ->
     exists b' col',
       snd (after_prompt (onDidReceiveMessage doc (MAddCard cid)) (Some t) now doc_now)
         = Written (replace_prefix doc (stringify (board_to_json b')) doc_now) /\
       nth_error (columns b') i = Some col' /\
       col_id col' = col_id col /\
       cards col' = cards col ++
         [{| card_id := js "card-" ++ number_to_string now; card_title := t |}]).
Proof.
  intros Hp Hb Ht. destruct (prompt_messages doc data Hp) as [Hc Hk]. split.
  - eexists. rewrite Hc. cbn [after_prompt].
    rewrite (add_column_k_eq doc data b t now doc_now Hb Ht). split; reflexivity.
  - intros cid i col Hi Hcol. rewrite Hk. cbn [after_prompt].
    rewrite (add_card_k_eq doc data b cid i t now doc_now Hb Hi Ht).
    do 2 eexists. split; [reflexivity|].
    split; [cbn [columns]; apply nth_error_update_eq; exact Hcol|].
    split; reflexivity.
Qed.

Lemma created_entity_ids_witness :
  json_parse ex_doc = Some (board_to_json ex_board) /\
  (exists b',
     snd (after_prompt (onDidReceiveMessage ex_doc MAddColumn) (Some (js "Milk"))
            1700000000000%N ex_doc)
       = Written (replace_prefix ex_doc (stringify (board_to_json b')) ex_doc) /\
     columns b' = columns ex_board ++
       [{| col_id := slug (js "Milk") ++ js "-" ++ number_to_string 1700000000000%N;
           col_title := js "Milk"; cards := [] |}]).
Proof.
  split; [vm_compute; reflexivity|].
  apply (created_entity_ids ex_doc (board_to_json ex_board) ex_board (js "Milk")
           1700000000000%N ex_doc); [vm_compute; reflexivity | vm_compute; reflexivity |].
  discriminate.
Defined.

(** The card created for the title [Milk] has the id [card-1700000000000],
    in which the slug [milk] of its title does not occur. *)
Lemma card_id_without_slug :
  snd (after_prompt (onDidReceiveMessage ex_doc (MAddCard (js "a"))) (Some (js "Milk"))
         1700000000000%N ex_doc)
  = Written (stringify (board_to_json
      {| columns := [mk_col "a" "A" [mk_card "c1" "X"; mk_card "c2" "Y"; mk_card "c3" "Z";
                                     mk_card "card-1700000000000" "Milk"];
                     mk_col "b" "B" []] |})) /\
  slug (js "Milk") = js "milk" /\
  (forall p q, js "card-1700000000000" <> p ++ slug (js "Milk") ++ q).
Proof.
  split; [vm_compute; reflexivity|]. split; [vm_compute; reflexivity|].
  intros p q E.
  assert (Hin : In 109 (p ++ slug (js "Milk") ++ q)).
  { apply in_or_app; right. apply in_or_app; left. vm_compute. left; reflexivity. }
  rewrite <- E in Hin. vm_compute in Hin.
  repeat (destruct Hin as [Hin|Hin]; [discriminate|]). exact Hin.
Qed.

(** ** C8: a document that does not parse *)

(** C8. When the document text does not parse, every message ends without a
    write and [sendData] posts nothing, so the webview keeps the board it
    holds. *)
Theorem unparsable_document doc m :
  json_parse doc = None ->
  onDidReceiveMessage doc m = Now Dropped /\ sendData doc = [].
Proof. intros H. unfold onDidReceiveMessage, sendData. rewrite H. split; reflexivity. Qed.

Lemma unparsable_document_witness :
  json_parse (jq "{'columns': [") = None /\
  onDidReceiveMessage (jq "{'columns': [") (MDeleteColumn (js "a")) = Now Dropped /\
  sendData (jq "{'columns': [") = [].
Proof.
  split; [vm_compute; reflexivity|].
  apply unparsable_document. vm_compute. reflexivity.
Defined.

(** ** C9: edits made while a prompt is open *)

(** C9. The text the prompting handlers write is computed from the board
    parsed when the message arrived; the document text when the prompt
    resolves contributes only what lies past the length of the text at
    arrival. *)
Theorem prompt_uses_arrival_board doc data b t now doc_now :
  json_parse doc = Some data -> board_of_json data = Some b -> t <> [] ->
  after_prompt (onDidReceiveMessage doc MAddColumn) (Some t) now doc_now
    = (sendData doc_now,
       Written (stringify (board_to_json
         {| columns := columns b ++
              [{| col_id := new_column_id t now; col_title := t; cards := [] |}] |})
         ++ skipn (length doc) doc_now)) /\
  (forall cid i, find_index (col_has_id cid) (columns b) = Some i ->
   after_prompt (onDidReceiveMessage doc (MAddCard cid)) (Some t) now doc_now
    = (sendData doc_now,
       Written (stringify (board_to_json
         {| columns := update_at i (fun c =>
              {| col_id := col_id c; col_title := col_title c;
                 cards := cards c ++ [{| card_id := new_card_id now; card_title := t |}] |})
              (columns b) |})
         ++ skipn (length doc) doc_now))).
Proof.
  intros Hp Hb Ht. destruct (prompt_messages doc data Hp) as [Hc Hk]. split.
  - rewrite Hc. apply (add_column_k_eq doc data b t now doc_now Hb Ht).
  - intros cid i Hi. rewrite Hk. apply (add_card_k_eq doc data b cid i t now doc_now Hb Hi Ht).
Qed.

Lemma prompt_uses_arrival_board_witness :
  json_parse ex_doc = Some (board_to_json ex_board) /\
  after_prompt (onDidReceiveMessage ex_doc MAddColumn) (Some (js "New")) 1700000000000%N ex_doc
    = (sendData ex_doc,
       Written (stringify (board_to_json
         {| columns := columns ex_board ++
              [{| col_id := new_column_id (js "New") 1700000000000%N; col_title := js "New";
                  cards := [] |}] |})
         ++ skipn (length ex_doc) ex_doc)).
Proof.
  split; [vm_compute; reflexivity|].
  apply (prompt_uses_arrival_board ex_doc (board_to_json ex_board) ex_board (js "New")
           1700000000000%N ex_doc); [vm_compute; reflexivity | vm_compute; reflexivity |].
  discriminate.
Defined.

(** An [add-column] prompt opened on [ex_doc]; while it is open a
    [delete-card] of [c1] arrives and is written; when the prompt resolves,
    the text written holds [c1] again. *)
Lemma prompt_discards_interleaved_edit :
  onDidReceiveMessage ex_doc (MDeleteCard (js "a") (js "c1"))
    = Now (Written (stringify (board_to_json
        {| columns := [mk_col "a" "A" [mk_card "c2" "Y"; mk_card "c3" "Z"];
                       mk_col "b" "B" []] |}))) /\
  snd (after_prompt (onDidReceiveMessage ex_doc MAddColumn) (Some (js "New")) 1700000000000%N
         (stringify (board_to_json
            {| columns := [mk_col "a" "A" [mk_card "c2" "Y"; mk_card "c3" "Z"];
                           mk_col "b" "B" []] |})))
    = Written (stringify (board_to_json
        {| columns := [mk_col "a" "A" [mk_card "c1" "X"; mk_card "c2" "Y"; mk_card "c3" "Z"];
                       mk_col "b" "B" []; mk_col "new-1700000000000" "New" []] |})).
Proof. split; vm_compute; reflexivity. Qed.

(** * Further properties of the handlers *)
Lemma find_index_card_id k l i cd :
  find_index (card_has_id k) l = Some i -> nth_error l i = Some cd -> card_id cd = k.
Proof.
  intros H Hn. destruct (find_index_some _ _ _ H) as (x & Hx & Hp).
  rewrite Hn in Hx. injection Hx as <-. apply jstr_eqb_true, Hp.
Qed.

Lemma find_index_col_id c l i col :
  find_index (col_has_id c) l = Some i -> nth_error l i = Some col -> col_id col = c.
Proof.
  intros H Hn. destruct (find_index_some _ _ _ H) as (x & Hx & Hp).
  rewrite Hn in Hx. injection Hx as <-. apply jstr_eqb_true, Hp.
Qed.

Lemma splice_start_nat j len : (j <= len)%nat -> splice_start (Z.of_nat j) len = j.
Proof.
  intros H. unfold splice_start. replace (Z.of_nat j <? 0) with false by lia. lia.
Qed.

(** A card dropped above another card of a column, whose [data-id] is [aid]
    (not the dragged card's id), lands directly before that card, in the
    same column as in another one; the drop then posts the new state as an
    [update]. *)
Theorem card_drop_before_after_element st f t kid aid fi fcol i cd ti dcol j acard :
  find_index (col_has_id f) (columns st) = Some fi ->
  nth_error (columns st) fi = Some fcol ->
  find_index (card_has_id kid) (cards fcol) = Some i ->
  nth_error (cards fcol) i = Some cd ->
  find_index (col_has_id t) (columns st) = Some ti ->
  nth_error (columns st) ti = Some dcol ->
  find_index (card_has_id aid) (cards dcol) = Some j ->
  nth_error (cards dcol) j = Some acard ->
  aid <> kid ->
  exists st' dcol' p,
    card_ondrop st f t kid (Some aid) = (st', [MUpdate (board_to_json st')]) /\
    nth_error (columns st') ti = Some dcol' /\
    nth_error (cards dcol') p = Some cd /\
    nth_error (cards dcol') (S p) = Some acard.
Proof.
  intros Hf Hc Hk Hd Ht Hdc Ha Haj Hne.
  assert (Hi : (i < length (cards fcol))%nat) by (eapply nth_error_lt; eauto).
  assert (Hj : (j < length (cards dcol))%nat) by (eapply nth_error_lt; eauto).
  unfold card_ondrop, drop_index. rewrite Ht, Hdc. unfold find_index_js. rewrite Ha.
  unfold card_drop.
  rewrite (moveCard_resolved st f t kid fi fcol i cd ti (Some (Z.of_nat j)) Hf Hc Hk Hd Ht).
  destruct (Nat.eq_dec fi ti) as [E|E]; eexists.
  - subst ti. rewrite Hc in Hdc. injection Hdc as <-.
    assert (Eft : f = t).
    { rewrite <- (find_index_col_id f _ _ _ Hf Hc). apply (find_index_col_id t _ _ _ Ht Hc). }
    subst t.
    assert (Hij : i <> j).
    { intros <-. rewrite Hd in Haj. injection Haj as <-.
      apply Hne. rewrite <- (find_index_card_id aid _ _ _ Ha Hd).
      apply (find_index_card_id kid _ _ _ Hk Hd). }
    pose proof (length_remove_at i (cards fcol) Hi) as Hlen.
    exists (splice_in_card (final_index f f i (Some (Z.of_nat j))) cd (splice_out_card i fcol)).
    destruct (Nat.lt_ge_cases i j) as [Hlt|Hge].
    + exists (j - 1)%nat. split; [reflexivity|]. split.
      { cbn [columns]. apply nth_error_update_eq, nth_error_update_eq, Hc. }
      unfold splice_in_card, splice_out_card, final_index, insert_index; cbn [cards].
      rewrite jstr_eqb_refl. replace (Z.of_nat i <? Z.of_nat j) with true by lia.
      cbn [andb]. replace (Z.of_nat j - 1) with (Z.of_nat (j - 1)) by lia.
      rewrite splice_start_nat by lia. split; [apply nth_error_insert_at; lia|].
      rewrite nth_error_insert_after by lia. rewrite nth_error_remove_after by lia.
      replace (S (j - 1)) with j by lia. exact Haj.
    + exists j. split; [reflexivity|]. split.
      { cbn [columns]. apply nth_error_update_eq, nth_error_update_eq, Hc. }
      unfold splice_in_card, splice_out_card, final_index, insert_index; cbn [cards].
      rewrite jstr_eqb_refl. replace (Z.of_nat i <? Z.of_nat j) with false by lia.
      cbn [andb]. rewrite splice_start_nat by lia. split; [apply nth_error_insert_at; lia|].
      rewrite nth_error_insert_after by lia. rewrite nth_error_remove_before by lia.
      exact Haj.
  - assert (Eft : jstr_eqb f t = false).
    { destruct (jstr_eqb f t) eqn:Q; [|reflexivity]. apply jstr_eqb_true in Q. subst t.
      congruence. }
    exists (splice_in_card (final_index f t i (Some (Z.of_nat j))) cd dcol). exists j.
    split; [reflexivity|]. split.
    { cbn [columns]. apply nth_error_update_eq.
      rewrite (nth_error_dest_after_removal _ fi ti i fcol dcol Hc Hdc).
      apply Nat.eqb_neq in E. rewrite E. reflexivity. }
    unfold splice_in_card, final_index, insert_index; cbn [cards].
    rewrite Eft. cbn [andb]. rewrite splice_start_nat by lia.
    split; [apply nth_error_insert_at; lia|].
    rewrite nth_error_insert_after by lia. exact Haj.
Qed.

(** A card dropped below every card of a column ([getDragAfterElement]
    gives undefined) becomes the last card of that column; dropped on its
    own column it moves to the end of it. The drop posts the new state. *)
Theorem card_drop_below_last st f t kid fi fcol i cd ti dcol :
  find_index (col_has_id f) (columns st) = Some fi ->
  nth_error (columns st) fi = Some fcol ->
  find_index (card_has_id kid) (cards fcol) = Some i ->
  nth_error (cards fcol) i = Some cd ->
  find_index (col_has_id t) (columns st) = Some ti ->
  nth_error (columns st) ti = Some dcol ->
  exists st' dcol',
    card_ondrop st f t kid None = (st', [MUpdate (board_to_json st')]) /\
    nth_error (columns st') ti = Some dcol' /\
    cards dcol' = (if Nat.eqb fi ti then remove_at i (cards fcol) else cards dcol) ++ [cd].
Proof.
  intros Hf Hc Hk Hd Ht Hdc.
  assert (Hi : (i < length (cards fcol))%nat) by (eapply nth_error_lt; eauto).
  unfold card_ondrop, drop_index. rewrite Ht, Hdc. unfold card_drop.
  rewrite (moveCard_resolved st f t kid fi fcol i cd ti (Some (Z.of_nat (length (cards dcol))))
             Hf Hc Hk Hd Ht).
  destruct (Nat.eq_dec fi ti) as [E|E]; eexists.
  - subst ti. rewrite Hc in Hdc. injection Hdc as <-.
    assert (Eft : f = t).
    { rewrite <- (find_index_col_id f _ _ _ Hf Hc). apply (find_index_col_id t _ _ _ Ht Hc). }
    subst t. pose proof (length_remove_at i (cards fcol) Hi) as Hlen.
    eexists. split; [reflexivity|]. split.
    { cbn [columns]. apply nth_error_update_eq, nth_error_update_eq, Hc. }
    rewrite Nat.eqb_refl.
    unfold splice_in_card, splice_out_card, final_index, insert_index; cbn [cards].
    rewrite jstr_eqb_refl. replace (Z.of_nat i <? Z.of_nat (length (cards fcol))) with true by lia.
    cbn [andb].
    replace (Z.of_nat (length (cards fcol)) - 1)
      with (Z.of_nat (length (remove_at i (cards fcol)))) by lia.
    rewrite splice_start_nat by lia. apply insert_at_end.
  - assert (Eft : jstr_eqb f t = false).
    { destruct (jstr_eqb f t) eqn:Q; [|reflexivity]. apply jstr_eqb_true in Q. subst t.
      congruence. }
    eexists. split; [reflexivity|]. split.
    { cbn [columns]. apply nth_error_update_eq.
      rewrite (nth_error_dest_after_removal _ fi ti i fcol dcol Hc Hdc).
      apply Nat.eqb_neq in E. rewrite E. reflexivity. }
    apply Nat.eqb_neq in E. rewrite E.
    unfold splice_in_card, final_index, insert_index; cbn [cards].
    rewrite Eft. cbn [andb]. rewrite splice_start_nat by lia. apply insert_at_end.
Qed.
Lemma trim_start_split s :
  exists p, s = p ++ trim_start s /\ forallb is_js_space p = true.
Proof.
  induction s as [|u s IH]; [exists []; split; reflexivity|]. cbn [trim_start].
  destruct (is_js_space u) eqn:E.
  - destruct IH as (p & Hp & Hs). exists (u :: p). split; [cbn; rewrite <- Hp; reflexivity|].
    cbn. rewrite E, Hs. reflexivity.
  - exists []. split; reflexivity.
Qed.

Lemma trim_start_head s c r : trim_start s = c :: r -> is_js_space c = false.
Proof.
  induction s as [|u s IH]; cbn; [discriminate|].
  destruct (is_js_space u) eqn:E; [exact IH|]. intros H. injection H as -> _. exact E.
Qed.

Lemma forallb_rev {A} (p : A -> bool) l : forallb p (rev l) = forallb p l.
Proof.
  induction l as [|x l IH]; cbn; [reflexivity|]. rewrite forallb_app, IH. cbn.
  rewrite andb_true_r, andb_comm. reflexivity.
Qed.

(** [trim] takes off white space at both ends: what it returns is a segment
    of its argument between two runs of white space, and it neither starts
    nor ends with white space. *)
Lemma trim_segment s :
  exists p q, s = p ++ trim s ++ q /\ forallb is_js_space p = true /\
              forallb is_js_space q = true.
Proof.
  destruct (trim_start_split s) as (p & Hp & Hsp).
  destruct (trim_start_split (rev (trim_start s))) as (p' & Hp' & Hsp').
  exists p, (rev p'). unfold trim.
  remember (trim_start s) as u eqn:Hu. remember (trim_start (rev u)) as v eqn:Hv. split.
  - rewrite Hp at 1. f_equal.
    rewrite <- (rev_involutive u), Hp', rev_app_distr. reflexivity.
  - split; [exact Hsp|]. rewrite forallb_rev. exact Hsp'.
Qed.

Lemma trim_ends s :
  trim s = [] \/
  (is_js_space (hd 0 (trim s)) = false /\ is_js_space (last (trim s) 0) = false).
Proof.
  unfold trim. destruct (trim_start (rev (trim_start s))) as [|c r] eqn:Hv; [left; reflexivity|].
  right. split.
  - destruct (trim_start_split (rev (trim_start s))) as (p' & Hp' & _).
    rewrite Hv in Hp'. apply (f_equal (@rev Z)) in Hp'.
    rewrite rev_involutive, rev_app_distr in Hp'.
    destruct (rev (c :: r)) as [|c' r'] eqn:Hr.
    + apply (f_equal (@length Z)) in Hr. rewrite length_rev in Hr. discriminate.
    + cbn [hd]. cbn [app] in Hp'. apply (trim_start_head s c' (r' ++ rev p')). exact Hp'.
  - cbn [rev]. rewrite last_last. apply (trim_start_head _ c r Hv).
Qed.

Lemma trim_all_space s : forallb is_js_space s = true -> trim s = [].
Proof.
  intros H. assert (Ht : trim_start s = []).
  { induction s as [|u s IH]; [reflexivity|]. cbn in H |- *.
    apply andb_true_iff in H as [H1 H2]. rewrite H1. apply IH, H2. }
  unfold trim. rewrite Ht. reflexivity.
Qed.

(** C6. A blank title is rejected with the column's title unchanged:
    [saveRename], the webview's only sender of [rename-column], posts
    nothing and puts the column's current title back into the edited element
    when the trimmed text is empty (in particular when the text is only white
    space), and also when it equals the current title. A [rename-column] it
    posts carries the trimmed text, which is nonempty, not only white space,
    and differs from the current title. *)
Theorem rename_blank_title col text :
  (trim text = [] -> saveRename col text = ResetTitle (col_title col)) /\
  (forallb is_js_space text = true -> saveRename col text = ResetTitle (col_title col)) /\
  (trim text = col_title col -> saveRename col text = ResetTitle (col_title col)) /\
  (forall m, saveRename col text = PostRename m ->
     m = MRenameColumn (col_id col) (trim text) /\
     trim text <> [] /\ forallb is_js_space (trim text) = false /\
     trim text <> col_title col).
Proof.
  assert (Hblank : trim text = [] -> saveRename col text = ResetTitle (col_title col))
    by (intros H; unfold saveRename; rewrite H; reflexivity).
  split; [exact Hblank|]. split; [|split].
  - intros H. apply Hblank, trim_all_space, H.
  - intros H. unfold saveRename. rewrite H, jstr_eqb_refl, andb_false_r. reflexivity.
  - intros m. unfold saveRename.
    destruct (negb (jstr_eqb (trim text) []) && negb (jstr_eqb (trim text) (col_title col)))
      eqn:E; [|discriminate].
    intros H. injection H as <-. apply andb_true_iff in E as [E1 E2].
    apply negb_true_iff in E1, E2.
    assert (Hne : trim text <> []) by (apply jstr_eqb_false; exact E1).
    split; [reflexivity|]. split; [exact Hne|]. split.
    + destruct (trim_ends text) as [Q|[Q _]]; [contradiction|].
      destruct (trim text) as [|u r]; [contradiction|]. cbn in Q |- *. rewrite Q. reflexivity.
    + apply jstr_eqb_false. exact E2.
Qed.

Lemma rename_blank_title_witness :
  forallb is_js_space (js "   ") = true /\
  saveRename ex_col_a (js "   ") = ResetTitle (js "A") /\
  trim (js " A ") = col_title ex_col_a /\
  saveRename ex_col_a (js " A ") = ResetTitle (js "A").
Proof.
  split; [vm_compute; reflexivity|].
  split; [apply (proj1 (proj2 (rename_blank_title ex_col_a (js "   "))));
          vm_compute; reflexivity|].
  split; [vm_compute; reflexivity|].
  apply (proj1 (proj2 (proj2 (rename_blank_title ex_col_a (js " A "))))).
  vm_compute. reflexivity.
Defined.

(** A title [saveRename] posts is a nonempty segment of the edited text that
    only white space surrounds, and it neither starts nor ends with white
    space. *)
Theorem saveRename_posts_trimmed col text m :
  saveRename col text = PostRename m ->
  exists p t q,
    m = MRenameColumn (col_id col) t /\ text = p ++ t ++ q /\
    forallb is_js_space p = true /\ forallb is_js_space q = true /\
    t <> [] /\ is_js_space (hd 0 t) = false /\ is_js_space (last t 0) = false.
Proof.
  unfold saveRename.
  destruct (negb (jstr_eqb (trim text) []) && negb (jstr_eqb (trim text) (col_title col)))
    eqn:E; [|discriminate].
  intros H. injection H as <-. apply andb_true_iff in E as [E1 _].
  apply negb_true_iff in E1.
  assert (Hne : trim text <> []) by (intros Q; rewrite Q in E1; discriminate).
  destruct (trim_segment text) as (p & q & Hs & Hp & Hq).
  exists p, (trim text), q. split; [reflexivity|]. split; [exact Hs|].
  split; [exact Hp|]. split; [exact Hq|]. split; [exact Hne|].
  destruct (trim_ends text) as [Q|Q]; [contradiction|exact Q].
Qed.

Lemma forallb_filter {A} (p : A -> bool) l : forallb p (filter p l) = true.
Proof.
  induction l as [|x l IH]; cbn; [reflexivity|]. destruct (p x) eqn:E; cbn; [rewrite E|]; auto.
Qed.

(** For every nonempty name given to [createBoard]'s prompt, the file name
    is a nonempty base and [.board.json]; the base only holds ASCII letters,
    digits, [-] and spaces, neither starts nor ends with a space, and is
    [untitled] when the name holds no letter, digit or [-]. *)
Theorem board_filename_shape name :
  name <> [] ->
  exists base,
    board_filename (Some name) = Some (base ++ js ".board.json") /\
    base <> [] /\ forallb name_char_ok base = true /\
    hd 0 base <> 32 /\ last base 0 <> 32 /\
    (forallb (fun u => negb (name_char_ok u) || (u =? 32)) name = true ->
     base = js "untitled").
Proof.
  intros Hn. unfold board_filename. destruct name as [|u name]; [contradiction|].
  set (s := filter name_char_ok (u :: name)).
  destruct (trim s) as [|c r] eqn:Ht.
  - exists (js "untitled"). split; [reflexivity|].
    split; [discriminate|]. split; [reflexivity|]. split; [discriminate|].
    split; [discriminate|]. intros _. reflexivity.
  - exists (c :: r). split; [reflexivity|]. split; [discriminate|].
    destruct (trim_segment s) as (p & q & Hs & _ & _).
    split.
    { pose proof (forallb_filter name_char_ok (u :: name)) as Hf. fold s in Hf.
      rewrite Hs, !forallb_app in Hf. rewrite Ht in Hf.
      apply andb_true_iff in Hf as [_ Hf]. apply andb_true_iff in Hf as [Hf _]. exact Hf. }
    destruct (trim_ends s) as [Q|[Q1 Q2]]; [rewrite Ht in Q; discriminate|].
    rewrite Ht in Q1, Q2. split; [intros E; rewrite E in Q1; discriminate|].
    split; [intros E; rewrite E in Q2; discriminate|].
    intros Hall. exfalso.
    assert (Hsp : forallb is_js_space s = true).
    { unfold s. clear -Hall. induction (u :: name) as [|x l IH]; [reflexivity|].
      cbn in Hall |- *. apply andb_true_iff in Hall as [H1 H2].
      destruct (name_char_ok x) eqn:E; cbn in H1 |- *; [|apply IH, H2].
      apply Z.eqb_eq in H1. subst x. apply IH, H2. }
    rewrite (trim_all_space s Hsp) in Ht. discriminate.
Qed.

Lemma col_count_remove n cols x :
  nth_error cols n = Some x ->
  (col_count (remove_at n cols) + length (cards x) = col_count cols)%nat.
Proof.
  revert n; induction cols as [|y t IH]; intros [|n] H; cbn in H; try discriminate.
  - injection H as <-. cbn. lia.
  - specialize (IH n H). change (remove_at (S n) (y :: t)) with (y :: remove_at n t).
    cbn [col_count fold_right] in *. unfold col_count in IH. lia.
Qed.

(** [delete-column] with a resolving id writes the board with one column
    less: the cards of that column are gone, the columns before it stay in
    place and the ones after it move one slot left. *)
Theorem delete_column_removes_one doc data b cid i col :
  json_parse doc = Some data -> board_of_json data = Some b ->
  find_index (col_has_id cid) (columns b) = Some i ->
  nth_error (columns b) i = Some col ->
  exists b',
    onDidReceiveMessage doc (MDeleteColumn cid) = Now (Written (stringify (board_to_json b'))) /\
    S (length (columns b')) = length (columns b) /\
    (card_count b' + length (cards col))%nat = card_count b /\
    (forall j, (j < i)%nat -> nth_error (columns b') j = nth_error (columns b) j) /\
    (forall j, (i <= j)%nat -> nth_error (columns b') j = nth_error (columns b) (S j)).
Proof.
  intros Hp Hb Hi Hc. exists {| columns := remove_at i (columns b) |}.
  split.
  - unfold onDidReceiveMessage. rewrite Hp, Hb. cbn [dispatch_sync]. rewrite Hi.
    rewrite replace_prefix_same. reflexivity.
  - cbn [columns]. split; [apply length_remove_at; eapply nth_error_lt; eauto|].
    split; [unfold card_count; apply col_count_remove, Hc|].
    split; intros j Hj; [apply nth_error_remove_before | apply nth_error_remove_after]; lia.
Qed.

(** [delete-card] with a resolving column and card writes a board with one
    card less: only the first card with that id is removed from its column,
    and every other column, the number of columns and the column's id and
    title stay as they were. *)
Theorem delete_card_removes_one doc data b cid kid i col k :
  json_parse doc = Some data -> board_of_json data = Some b ->
  find_index (col_has_id cid) (columns b) = Some i ->
  nth_error (columns b) i = Some col ->
  find_index (card_has_id kid) (cards col) = Some k ->
  exists b' col',
    onDidReceiveMessage doc (MDeleteCard cid kid) = Now (Written (stringify (board_to_json b'))) /\
    S (card_count b') = card_count b /\
    length (columns b') = length (columns b) /\
    nth_error (columns b') i = Some col' /\
    col_id col' = col_id col /\ col_title col' = col_title col /\
    cards col' = remove_at k (cards col) /\
    (forall j, j <> i -> nth_error (columns b') j = nth_error (columns b) j).
Proof.
  intros Hp Hb Hi Hc Hk.
  destruct (find_index_some _ _ _ Hk) as (cd & Hcd & _).
  assert (Hkl : (k < length (cards col))%nat) by (eapply nth_error_lt; eauto).
  set (f := fun c => {| col_id := col_id c; col_title := col_title c;
                        cards := remove_at k (cards c) |}).
  exists {| columns := update_at i f (columns b) |}, (f col).
  split.
  - unfold onDidReceiveMessage. rewrite Hp, Hb. cbn [dispatch_sync]. rewrite Hi, Hc, Hk.
    rewrite replace_prefix_same. reflexivity.
  - cbn [columns]. split.
    { pose proof (col_count_update i f (columns b) col Hc) as H.
      pose proof (length_remove_at k (cards col) Hkl) as H2.
      unfold card_count. cbn [columns]. unfold f in H at 2. cbn [cards] in H. lia. }
    split; [apply length_update|]. split; [apply nth_error_update_eq, Hc|].
    split; [reflexivity|]. split; [reflexivity|]. split; [reflexivity|].
    intros j Hj. apply nth_error_update_neq. auto.
Qed.

(** [add-card] on a resolving column, given a nonempty title, writes a board
    with one card more and the same number of columns, every other column
    unchanged. *)
Theorem add_card_adds_one doc data b cid i t now doc_now :
  json_parse doc = Some data -> board_of_json data = Some b ->
  find_index (col_has_id cid) (columns b) = Some i -> t <> [] ->
  exists b',
    snd (after_prompt (onDidReceiveMessage doc (MAddCard cid)) (Some t) now doc_now)
      = Written (replace_prefix doc (stringify (board_to_json b')) doc_now) /\
    card_count b' = S (card_count b) /\
    length (columns b') = length (columns b) /\
    (forall j, j <> i -> nth_error (columns b') j = nth_error (columns b) j).
Proof.
  intros Hp Hb Hi Ht.
  destruct (find_index_some _ _ _ Hi) as (col & Hc & _).
  destruct (prompt_messages doc data Hp) as [_ Hk]. rewrite Hk. cbn [after_prompt].
  rewrite (add_card_k_eq doc data b cid i t now doc_now Hb Hi Ht).
  eexists. split; [reflexivity|]. cbn [columns]. split.
  - unfold card_count. cbn [columns].
    match goal with |- context [update_at i ?g _] =>
      pose proof (col_count_update i g (columns b) col Hc) as H end.
    cbn [cards] in H. rewrite length_app in H. cbn [length] in H. lia.
  - split; [apply length_update|]. intros j Hj. apply nth_error_update_neq. auto.
Qed.

Lemma map_update_at {A B} (g : A -> B) (f : A -> A) n l :
  (forall x, g (f x) = g x) -> map g (update_at n f l) = map g l.
Proof.
  intros H. revert n; induction l as [|y t IH]; intros [|n]; cbn; try reflexivity.
  - rewrite H. reflexivity.
  - rewrite IH. reflexivity.
Qed.

(** [moveCard], whatever its arguments and also when it throws, never adds,
    removes, reorders or renames columns: the ids and titles of the columns
    stay the same list. *)
Theorem moveCard_keeps_columns st f t k idx :
  map (fun c => (col_id c, col_title c)) (columns (fst (moveCard st f t k idx)))
  = map (fun c => (col_id c, col_title c)) (columns st).
Proof.
  unfold moveCard.
  destruct (find_index (col_has_id f) (columns st)) as [fi|]; [|reflexivity].
  destruct (nth_error (columns st) fi) as [fcol|]; [|reflexivity].
  destruct (find_index (card_has_id k) (cards fcol)) as [i|]; [|reflexivity].
  destruct (nth_error (cards fcol) i) as [cd|]; [|reflexivity].
  destruct (find_index _ (update_at fi (splice_out_card i) (columns st))) as [ti|];
    cbn [fst columns]; rewrite ?map_update_at; reflexivity.
Qed.

(** When the [add-column] or [add-card] prompt is dismissed or answered with
    an empty text, nothing is written and no snapshot is posted. *)
Theorem prompt_declined_no_write doc data title now doc_now :
  json_parse doc = Some data -> (title = None \/ title = Some []) ->
  after_prompt (onDidReceiveMessage doc MAddColumn) title now doc_now = ([], Dropped) /\
  (forall cid,
     after_prompt (onDidReceiveMessage doc (MAddCard cid)) title now doc_now = ([], Dropped)).
Proof.
  intros Hp Ht. destruct (prompt_messages doc data Hp) as [Hc Hk].
  rewrite Hc. split; [|intros cid; rewrite Hk];
    destruct Ht as [-> | ->]; reflexivity.
Qed.

Lemma uint_units_digits d : forallb is_digit (uint_units d) = true.
Proof. induction d; cbn [uint_units forallb]; try reflexivity; rewrite IHd; reflexivity. Qed.

Lemma number_to_string_nonempty n : number_to_string n <> [].
Proof.
  unfold number_to_string. destruct (N.to_uint n) eqn:E; try discriminate.
  pose proof (DecimalN.Unsigned.of_to n) as H. rewrite E in H. cbn in H. subst n.
  discriminate.
Qed.

(** The ids [add-column] and [add-card] generate only hold [a-z], [0-9] and
    [-]; both end in the same nonempty decimal text of [Date.now()], after
    the slug and a [-] for a column and after [card-] for a card. *)
Theorem created_ids_alphabet t now :
  forallb id_unit (new_column_id t now) = true /\
  forallb id_unit (new_card_id now) = true /\
  exists d, new_column_id t now = slug t ++ [45] ++ d /\
            new_card_id now = js "card-" ++ d /\
            d <> [] /\ forallb is_digit d = true.
Proof.
  assert (Hd : forallb id_unit (number_to_string now) = true).
  { pose proof (uint_units_digits (N.to_uint now)) as H. unfold number_to_string.
    rewrite forallb_forall in H |- *. intros x Hx. specialize (H x Hx).
    unfold id_unit, is_slug_unit. rewrite H. rewrite orb_true_r. reflexivity. }
  assert (Hs : forallb id_unit (slug t) = true).
  { unfold slug. rewrite forallb_forall. intros x Hx. apply in_map_iff in Hx as (y & <- & _).
    unfold id_unit. destruct (is_slug_unit y) eqn:E; rewrite ?E; reflexivity. }
  split; [|split].
  - unfold new_column_id. rewrite !forallb_app, Hs, Hd. reflexivity.
  - unfold new_card_id. rewrite forallb_app, Hd. reflexivity.
  - exists (number_to_string now). split; [reflexivity|]. split; [reflexivity|].
    split; [apply number_to_string_nonempty|apply uint_units_digits].
Qed.

(** ** Witnesses of the properties above *)

Lemma card_drop_before_after_element_witness :
  exists st' dcol' p,
    card_ondrop ex_board (js "a") (js "a") (js "c3") (Some (js "c1"))
      = (st', [MUpdate (board_to_json st')]) /\
    nth_error (columns st') 0 = Some dcol' /\
    nth_error (cards dcol') p = Some (mk_card "c3" "Z") /\
    nth_error (cards dcol') (S p) = Some (mk_card "c1" "X").
Proof.
  apply (card_drop_before_after_element ex_board (js "a") (js "a") (js "c3") (js "c1")
           0 ex_col_a 2 (mk_card "c3" "Z") 0 ex_col_a 0 (mk_card "c1" "X"));
    (vm_compute; reflexivity) || discriminate.
Defined.

Lemma card_drop_below_last_witness :
  exists st' dcol',
    card_ondrop ex_board (js "a") (js "b") (js "c1") None
      = (st', [MUpdate (board_to_json st')]) /\
    nth_error (columns st') 1 = Some dcol' /\
    cards dcol' = (if Nat.eqb 0 1 then remove_at 2 (cards ex_col_a)
                   else cards (mk_col "b" "B" [])) ++ [mk_card "c1" "X"].
Proof.
  apply (card_drop_below_last ex_board (js "a") (js "b") (js "c1")
           0 ex_col_a 0 (mk_card "c1" "X") 1 (mk_col "b" "B" [])); vm_compute; reflexivity.
Defined.

Lemma saveRename_posts_trimmed_witness :
  saveRename ex_col_a (js "  Todo ") = PostRename (MRenameColumn (js "a") (js "Todo")) /\
  exists p t q,
    MRenameColumn (js "a") (js "Todo") = MRenameColumn (col_id ex_col_a) t /\
    js "  Todo " = p ++ t ++ q /\
    forallb is_js_space p = true /\ forallb is_js_space q = true /\
    t <> [] /\ is_js_space (hd 0 t) = false /\ is_js_space (last t 0) = false.
Proof.
  split; [vm_compute; reflexivity|].
  apply saveRename_posts_trimmed. vm_compute. reflexivity.
Defined.

Lemma board_filename_shape_witness :
  board_filename (Some (js " My Plan! ")) = Some (js "My Plan.board.json") /\
  exists base,
    board_filename (Some (js " My Plan! ")) = Some (base ++ js ".board.json") /\
    base <> [] /\ forallb name_char_ok base = true /\
    hd 0 base <> 32 /\ last base 0 <> 32 /\
    (forallb (fun u => negb (name_char_ok u) || (u =? 32)) (js " My Plan! ") = true ->
     base = js "untitled").
Proof.
  split; [vm_compute; reflexivity|].
  apply board_filename_shape. discriminate.
Defined.

Lemma delete_column_removes_one_witness :
  exists b',
    onDidReceiveMessage ex_doc (MDeleteColumn (js "a"))
      = Now (Written (stringify (board_to_json b'))) /\
    S (length (columns b')) = length (columns ex_board) /\
    (card_count b' + length (cards ex_col_a))%nat = card_count ex_board /\
    (forall j, (j < 0)%nat -> nth_error (columns b') j = nth_error (columns ex_board) j) /\
    (forall j, (0 <= j)%nat -> nth_error (columns b') j = nth_error (columns ex_board) (S j)).
Proof.
  apply (delete_column_removes_one ex_doc (board_to_json ex_board) ex_board (js "a") 0 ex_col_a);
    vm_compute; reflexivity.
Defined.

Lemma delete_card_removes_one_witness :
  exists b' col',
    onDidReceiveMessage ex_doc (MDeleteCard (js "a") (js "c2"))
      = Now (Written (stringify (board_to_json b'))) /\
    S (card_count b') = card_count ex_board /\
    length (columns b') = length (columns ex_board) /\
    nth_error (columns b') 0 = Some col' /\
    col_id col' = col_id ex_col_a /\ col_title col' = col_title ex_col_a /\
    cards col' = remove_at 1 (cards ex_col_a) /\
    (forall j, j <> 0%nat -> nth_error (columns b') j = nth_error (columns ex_board) j).
Proof.
  apply (delete_card_removes_one ex_doc (board_to_json ex_board) ex_board (js "a") (js "c2")
           0 ex_col_a 1); vm_compute; reflexivity.
Defined.

Lemma add_card_adds_one_witness :
  exists b',
    snd (after_prompt (onDidReceiveMessage ex_doc (MAddCard (js "b"))) (Some (js "Milk"))
           1700000000000%N ex_doc)
      = Written (replace_prefix ex_doc (stringify (board_to_json b')) ex_doc) /\
    card_count b' = S (card_count ex_board) /\
    length (columns b') = length (columns ex_board) /\
    (forall j, j <> 1%nat -> nth_error (columns b') j = nth_error (columns ex_board) j).
Proof.
  apply (add_card_adds_one ex_doc (board_to_json ex_board) ex_board (js "b") 1 (js "Milk")
           1700000000000%N ex_doc); (vm_compute; reflexivity) || discriminate.
Defined.

Lemma prompt_declined_no_write_witness :
  after_prompt (onDidReceiveMessage ex_doc MAddColumn) None 1700000000000%N ex_doc
    = ([], Dropped) /\
  (forall cid,
     after_prompt (onDidReceiveMessage ex_doc (MAddCard cid)) None 1700000000000%N ex_doc
       = ([], Dropped)).
Proof.
  apply (prompt_declined_no_write ex_doc (board_to_json ex_board));
    [vm_compute; reflexivity | left; reflexivity].
Defined.
